(** * git-stalker: the event normalizer, the GitHub source and the tracker

    A shallow embedding of [src/core/github.py] and [src/core/base.py].

    - Raw events and detail maps are loosely-typed JSON-like values
      ([value]): None, booleans, integers, strings, lists and dicts with
      string keys; the numbers of the feed (counts, issue numbers) are
      integers.  A dict is an association list in insertion order.
    - A Python [str] is a [string]; each [ascii] stands for one character,
      the one with its code point (ASCII and Latin-1).
    - Exceptions are explicit: a computation that may raise returns a
      [result]; methods that also write to the logger return a pair of the
      records they logged and a [result].  [exn] holds instances of
      [Exception]; [try ... except Exception] therefore catches every
      [exn], and [except requests.RequestException] only those of that
      class.
    - A [datetime] is the wall clock it shows, in microseconds, and its
      offset from UTC; a naive one has no offset.  Two aware ones compare by
      their instants, two naive ones by their wall clocks, and ordering a
      naive and an aware one raises [TypeError].
    - The logger calls are kept: a method returns the records it logged
      next to its result.  A record keeps the literal text of its message;
      the text of an exception is kept as the exception itself. *)

From Stdlib Require Import ZArith List String Ascii DecimalString Bool Lia.
From Stdlib Require Import Permutation Sorted.
Import ListNotations.

Open Scope list_scope.
Open Scope string_scope.
Open Scope Z_scope.

(** ** Values *)

#[local] Set Warnings "-register-all".

Inductive value : Type :=
| VNone
| VBool (b : bool)
| VInt (n : Z)
| VStr (s : string)
| VList (items : list value)
| VDict (entries : list (string * value)).

Definition dict : Type := list (string * value).

(** ** Exceptions and results *)

Inductive exn : Type :=
| AttributeError
| TypeError
| KeyError
| IndexError
| ValueError
| OverflowError
| ConnectionError
| Timeout
| HTTPError (status : Z)
| OtherError (name : string).

(** [requests.RequestException] and its subclasses. *)
Definition is_RequestException (e : exn) : bool :=
  match e with
  | ConnectionError | Timeout | HTTPError _ => true
  | _ => false
  end.

Inductive result (A : Type) : Type :=
| Ok (a : A)
| Raise (e : exn).

Arguments Ok {A} a.
Arguments Raise {A} e.

Definition bind {A B : Type} (c : result A) (k : A -> result B) : result B :=
  match c with
  | Ok a => k a
  | Raise e => Raise e
  end.

Notation "x <- c ;; k" := (bind c (fun x => k))
  (at level 61, c at next level, right associativity).

Fixpoint mapM {A B : Type} (f : A -> result B) (l : list A) : result (list B) :=
  match l with
  | [] => Ok []
  | a :: l' =>
      b <- f a ;;
      bs <- mapM f l' ;;
      Ok (b :: bs)
  end.

(** ** Dates and times *)

(** A [datetime]: the wall clock it shows, in microseconds since
    1970-01-01T00:00:00 on that clock, and what [utcoffset()] gives, in
    microseconds; [None] for a naive one.  The time zone of an aware one is
    a fixed offset, as [fromisoformat] builds it. *)
Record datetime : Type := mk_datetime {
  wall : Z;
  utcoffset : option Z
}.

Definition aware (d : datetime) : bool :=
  match utcoffset d with
  | Some _ => true
  | None => false
  end.

(** What a comparison looks at: the instant on the UTC time line of an
    aware [datetime], the wall clock of a naive one. *)
Definition moment (d : datetime) : Z :=
  match utcoffset d with
  | Some offset => wall d - offset
  | None => wall d
  end.

(** [d1 < d2]. *)
Definition datetime_lt (d1 d2 : datetime) : result bool :=
  match utcoffset d1, utcoffset d2 with
  | None, None => Ok (wall d1 <? wall d2)
  | Some offset1, Some offset2 => Ok (wall d1 - offset1 <? wall d2 - offset2)
  | _, _ => Raise TypeError
  end.

(** The wall clocks of 0001-01-01T00:00:00 and of
    9999-12-31T23:59:59.999999, the first and the last that a [datetime]
    shows. *)
Definition min_wall : Z := -62135596800000000.
Definition max_wall : Z := 253402300799999999.

(** [d - timedelta(microseconds=n)]. *)
Definition datetime_minus (d : datetime) (n : Z) : result datetime :=
  let shifted := wall d - n in
  if (shifted <? min_wall) || (max_wall <? shifted) then Raise OverflowError
  else Ok (mk_datetime shifted (utcoffset d)).

(** ** Logging *)

Inductive level : Type := DEBUG | INFO | WARNING | ERROR.

(** A log record: its level, the literal text of the message and, where the
    message ends in [str(e)], the exception. *)
Record log_record : Type := mk_log {
  levelname : level;
  msg : string;
  exc : option exn
}.

Definition M (A : Type) : Type := (list log_record * result A)%type.

Definition ret {A : Type} (a : A) : M A := ([], Ok a).

Definition raise {A : Type} (e : exn) : M A := ([], Raise e).

Definition lift {A : Type} (c : result A) : M A := ([], c).

Definition log (lv : level) (m : string) : M unit := ([mk_log lv m None], Ok tt).

Definition log_exc (lv : level) (m : string) (e : exn) : M unit :=
  ([mk_log lv m (Some e)], Ok tt).

Definition bindM {A B : Type} (c : M A) (k : A -> M B) : M B :=
  match c with
  | (l1, Ok a) => let (l2, r) := k a in ((l1 ++ l2)%list, r)
  | (l1, Raise e) => (l1, Raise e)
  end.

Notation "x <~ c ;; k" := (bindM c (fun x => k))
  (at level 61, c at next level, right associativity).
Notation "c ;;; k" := (bindM c (fun _ => k))
  (at level 61, right associativity).

(** [try: body / except cls as e: handler e]: the handler runs when the body
    raises an exception of the class [cls]; any other exception passes. *)
Definition try_except {A : Type} (body : M A) (cls : exn -> bool)
    (handler : exn -> M A) : M A :=
  match body with
  | (l1, Ok a) => (l1, Ok a)
  | (l1, Raise e) =>
      if cls e then let (l2, r) := handler e in ((l1 ++ l2)%list, r)
      else (l1, Raise e)
  end.

(** [except Exception]: every modelled exception. *)
Definition Exception (e : exn) : bool := true.

Definition returned {A : Type} (c : M A) : result A := snd c.
Definition logged {A : Type} (c : M A) : list log_record := fst c.

(** ** Python built-ins on strings *)

Definition LF : ascii := "010"%char.
Definition CR : ascii := "013"%char.
Definition TAB : ascii := "009"%char.
Definition DQUOTE : ascii := "034"%char.
Definition SQUOTE : ascii := "'"%char.
Definition BACKSLASH : ascii := "\"%char.

Fixpoint str_take (n : nat) (s : string) : string :=
  match n, s with
  | O, _ => EmptyString
  | S _, EmptyString => EmptyString
  | S n', String c s' => String c (str_take n' s')
  end.

Fixpoint str_contains_char (c : ascii) (s : string) : bool :=
  match s with
  | EmptyString => false
  | String c' s' => Ascii.eqb c c' || str_contains_char c s'
  end.

(** [s.replace(old, new)] for a non-empty [old]: the occurrences of [old]
    are found from the left and do not overlap.  [skip] counts the
    characters of an occurrence still to be dropped. *)
Fixpoint replace_from (old new : string) (skip : nat) (s : string) : string :=
  match s with
  | EmptyString => EmptyString
  | String c s' =>
      match skip with
      | S k => replace_from old new k s'
      | O =>
          if prefix old s
          then new ++ replace_from old new (String.length old - 1) s'
          else String c (replace_from old new O s')
      end
  end.

Definition str_replace (old new s : string) : string :=
  replace_from old new O s.

(** [s.split(sep)] for a one-character separator. *)
Fixpoint str_split (sep : ascii) (s : string) : list string :=
  match s with
  | EmptyString => [EmptyString]
  | String c s' =>
      if Ascii.eqb c sep then EmptyString :: str_split sep s'
      else
        match str_split sep s' with
        | [] => [String c EmptyString]
        | w :: ws => String c w :: ws
        end
  end.

(** The letters with a capital 32 code points below them: a to z and the
    Latin-1 letters from 224 to 254, the division sign (247) apart. *)
Definition ascii_upper (c : ascii) : ascii :=
  let n := nat_of_ascii c in
  if ((97 <=? n)%nat && (n <=? 122)%nat)
     || ((224 <=? n)%nat && (n <=? 254)%nat && negb (n =? 247)%nat)
  then ascii_of_nat (n - 32) else c.

(** The capitals: A to Z and the Latin-1 letters from 192 to 222, the
    multiplication sign (215) apart. *)
Definition ascii_lower (c : ascii) : ascii :=
  let n := nat_of_ascii c in
  if ((65 <=? n)%nat && (n <=? 90)%nat)
     || ((192 <=? n)%nat && (n <=? 222)%nat && negb (n =? 215)%nat)
  then ascii_of_nat (n + 32) else c.

Fixpoint str_map (f : ascii -> ascii) (s : string) : string :=
  match s with
  | EmptyString => EmptyString
  | String c s' => String (f c) (str_map f s')
  end.

(** [s.capitalize()]: the first character in title case, the rest in lower
    case.  The sharp s (223) has the title case [Ss]; the capitals of the
    micro sign (181) and of the y with diaeresis (255) are no Latin-1
    characters, and a string that begins with one of the two is outside the
    strings modelled here. *)
Definition str_capitalize (s : string) : string :=
  match s with
  | EmptyString => EmptyString
  | String c s' =>
      if (nat_of_ascii c =? 223)%nat then "Ss" ++ str_map ascii_lower s'
      else String (ascii_upper c) (str_map ascii_lower s')
  end.

Fixpoint str_join (sep : string) (l : list string) : string :=
  match l with
  | [] => EmptyString
  | [s] => s
  | s :: l' => s ++ sep ++ str_join sep l'
  end.

Definition str_of_Z (n : Z) : string := NilZero.string_of_int (Z.to_int n).

Definition hex_digit (n : nat) : ascii :=
  if (n <? 10)%nat then ascii_of_nat (48 + n) else ascii_of_nat (87 + n).

(** One character of [repr(s)], inside the quote [q]. *)
Definition repr_char (q c : ascii) : string :=
  let n := nat_of_ascii c in
  if Ascii.eqb c BACKSLASH then String BACKSLASH (String BACKSLASH EmptyString)
  else if Ascii.eqb c q then String BACKSLASH (String q EmptyString)
  else if Ascii.eqb c LF then String BACKSLASH "n"
  else if Ascii.eqb c CR then String BACKSLASH "r"
  else if Ascii.eqb c TAB then String BACKSLASH "t"
  else if (n <? 32)%nat || ((127 <=? n)%nat && (n <=? 160)%nat) || (n =? 173)%nat
  then String BACKSLASH
         (String "x" (String (hex_digit (n / 16)) (String (hex_digit (n mod 16)) EmptyString)))
  else String c EmptyString.

Fixpoint repr_chars (q : ascii) (s : string) : string :=
  match s with
  | EmptyString => EmptyString
  | String c s' => repr_char q c ++ repr_chars q s'
  end.

(** [repr(s)] of a string: single quotes, unless the string has a single
    quote and no double quote. *)
Definition str_repr (s : string) : string :=
  let q := if str_contains_char SQUOTE s && negb (str_contains_char DQUOTE s)
           then DQUOTE else SQUOTE in
  String q (repr_chars q s ++ String q EmptyString).

Fixpoint py_repr (v : value) : string :=
  match v with
  | VNone => "None"
  | VBool true => "True"
  | VBool false => "False"
  | VInt n => str_of_Z n
  | VStr s => str_repr s
  | VList items => "[" ++ str_join ", " (map py_repr items) ++ "]"
  | VDict entries =>
      "{" ++ str_join ", "
               (map (fun kv => let (k, v') := kv : string * value in
                               str_repr k ++ ": " ++ py_repr v') entries)
          ++ "}"
  end.

(** [str(v)], which is what a replacement field [{v}] of an f-string
    inserts. *)
Definition py_str (v : value) : string :=
  match v with
  | VStr s => s
  | _ => py_repr v
  end.

(** ** Python built-ins on values *)

Fixpoint dict_lookup (k : string) (d : dict) : option value :=
  match d with
  | [] => None
  | (k', v) :: d' => if String.eqb k k' then Some v else dict_lookup k d'
  end.

(** [d.get(k, default)] on a dict. *)
Definition dict_get (d : dict) (k : string) (default : value) : value :=
  match dict_lookup k d with
  | Some x => x
  | None => default
  end.

(** [v.get(k, default)]: only a dict has the method. *)
Definition py_get (v : value) (k : string) (default : value) : result value :=
  match v with
  | VDict d => Ok (dict_get d k default)
  | _ => Raise AttributeError
  end.

(** [v[k]] for a string key [k]. *)
Definition py_getitem (v : value) (k : string) : result value :=
  match v with
  | VDict d =>
      match dict_lookup k d with
      | Some x => Ok x
      | None => Raise KeyError
      end
  | _ => Raise TypeError
  end.

(** [d[k]] on a detail map. *)
Definition dict_getitem (d : dict) (k : string) : result value :=
  py_getitem (VDict d) k.

(** [v[i]] for a non-negative integer [i]. *)
Definition py_index (v : value) (i : nat) : result value :=
  match v with
  | VList l =>
      match nth_error l i with
      | Some x => Ok x
      | None => Raise IndexError
      end
  | VStr s =>
      match String.get i s with
      | Some c => Ok (VStr (String c EmptyString))
      | None => Raise IndexError
      end
  | VDict _ => Raise KeyError
  | _ => Raise TypeError
  end.

(** [len(v)]. *)
Definition py_len (v : value) : result Z :=
  match v with
  | VStr s => Ok (Z.of_nat (String.length s))
  | VList l => Ok (Z.of_nat (List.length l))
  | VDict d => Ok (Z.of_nat (List.length d))
  | _ => Raise TypeError
  end.

(** [v[:n]]: strings and lists are sliced; a slice is no key of a dict and
    the other values are not subscriptable. *)
Definition py_slice_to (n : nat) (v : value) : result value :=
  match v with
  | VStr s => Ok (VStr (str_take n s))
  | VList l => Ok (VList (firstn n l))
  | _ => Raise TypeError
  end.

Fixpoint str_chars (s : string) : list value :=
  match s with
  | EmptyString => []
  | String c s' => VStr (String c EmptyString) :: str_chars s'
  end.

(** The items a [for] loop or a comprehension draws from [v]. *)
Definition py_iter (v : value) : result (list value) :=
  match v with
  | VList l => Ok l
  | VStr s => Ok (str_chars s)
  | VDict d => Ok (map (fun kv => VStr (fst kv)) d)
  | _ => Raise TypeError
  end.

(** [v + s] for a string literal [s]. *)
Definition py_add_str (v : value) (s : string) : result value :=
  match v with
  | VStr a => Ok (VStr (a ++ s))
  | _ => Raise TypeError
  end.

(** [v.replace(old, new)]. *)
Definition py_replace (v : value) (old new : string) : result string :=
  match v with
  | VStr s => Ok (str_replace old new s)
  | _ => Raise AttributeError
  end.

(** [v.split(sep)]. *)
Definition py_split (v : value) (sep : ascii) : result (list string) :=
  match v with
  | VStr s => Ok (str_split sep s)
  | _ => Raise AttributeError
  end.

(** [v.capitalize()]. *)
Definition py_capitalize (v : value) : result string :=
  match v with
  | VStr s => Ok (str_capitalize s)
  | _ => Raise AttributeError
  end.

(** [v.startswith(p)]. *)
Definition py_startswith (v : value) (p : string) : result bool :=
  match v with
  | VStr s => Ok (prefix p s)
  | _ => Raise AttributeError
  end.

(** Truth value of [v] in a condition. *)
Definition py_truth (v : value) : bool :=
  match v with
  | VNone => false
  | VBool b => b
  | VInt n => negb (n =? 0)%Z
  | VStr s => negb (String.eqb s EmptyString)
  | VList l => match l with [] => false | _ => true end
  | VDict d => match d with [] => false | _ => true end
  end.

(** [v > n] for an integer literal [n]; [bool] is a subclass of [int]. *)
Definition py_gt (v : value) (n : Z) : result bool :=
  match v with
  | VInt m => Ok (m >? n)%Z
  | VBool b => Ok ((if b then 1 else 0) >? n)%Z
  | _ => Raise TypeError
  end.

(** [v == s] for a string literal [s]. *)
Definition py_eq_str (v : value) (s : string) : bool :=
  match v with
  | VStr s' => String.eqb s' s
  | _ => false
  end.

Definition nth_str (l : list string) (i : nat) : result string :=
  match nth_error l i with
  | Some x => Ok x
  | None => Raise IndexError
  end.

(** * Activities ([src/core/base.py]) *)

(** The frozen dataclass [Activity]. *)
Record Activity : Type := mk_Activity {
  source : string;
  timestamp : datetime;
  type : value;
  details : dict;
  message : string
}.

(** * The GitHub source ([src/core/github.py]) *)

Module GitHubActivitySource.

(** ** The event normalizer *)

Definition base_url : string := "https://github.com".

Definition fallback_details : dict :=
  [("error", VStr "Failed to process event details")].

(** The first line of a commit message:
    [commit.get("message", "").split("\n")[0]]. *)
Definition first_line (commit : value) : result string :=
  message <- py_get commit "message" (VStr "") ;;
  lines <- py_split message LF ;;
  nth_str lines 0.

(** The [try] block of [_simplify_event_details]. *)
Definition simplify_try (event_type event : value) : result dict :=
  repo_obj <- py_get event "repo" (VDict []) ;;
  repo <- py_get repo_obj "name" (VStr "unknown") ;;
  payload <- py_get event "payload" (VDict []) ;;
  let repo_url := base_url ++ "/" ++ py_str repo in
  if py_eq_str event_type "PushEvent" then
    ref <- py_get payload "ref" (VStr "unknown") ;;
    branch <- py_replace ref "refs/heads/" "" ;;
    commits <- py_get payload "commits" (VList []) ;;
    commit_count <- py_len commits ;;
    commits' <- py_get payload "commits" (VList []) ;;
    first3 <- py_slice_to 3 commits' ;;
    shown <- py_iter first3 ;;
    commit_messages <- mapM first_line shown ;;
    before <- py_get payload "before" (VStr "") ;;
    head <- py_get payload "head" (VStr "") ;;
    Ok [("repository", repo);
        ("repository_url", VStr repo_url);
        ("ref", ref);
        ("commit_count", VInt commit_count);
        ("commit_messages", VList (map VStr commit_messages));
        ("compare_url",
         VStr (repo_url ++ "/compare/" ++ py_str before ++ "..." ++ py_str head))]
  else if py_eq_str event_type "PullRequestEvent" then
    pr <- py_get payload "pull_request" (VDict []) ;;
    action <- py_get payload "action" (VStr "unknown") ;;
    title <- py_get pr "title" (VStr "unknown") ;;
    number <- py_get pr "number" (VStr "unknown") ;;
    state <- py_get pr "state" (VStr "unknown") ;;
    url <- py_get pr "html_url" VNone ;;
    Ok [("action", action);
        ("title", title);
        ("number", number);
        ("repository", repo);
        ("repository_url", VStr repo_url);
        ("state", state);
        ("url", url)]
  else if py_eq_str event_type "IssuesEvent" then
    issue <- py_get payload "issue" (VDict []) ;;
    action <- py_get payload "action" (VStr "unknown") ;;
    title <- py_get issue "title" (VStr "unknown") ;;
    number <- py_get issue "number" (VStr "unknown") ;;
    url <- py_get issue "html_url" VNone ;;
    Ok [("action", action);
        ("title", title);
        ("number", number);
        ("repository", repo);
        ("repository_url", VStr repo_url);
        ("url", url)]
  else if py_eq_str event_type "IssueCommentEvent" then
    action <- py_get payload "action" (VStr "unknown") ;;
    issue <- py_get payload "issue" (VDict []) ;;
    issue_number <- py_get issue "number" (VStr "unknown") ;;
    comment <- py_get payload "comment" (VDict []) ;;
    body <- py_get comment "body" (VStr "") ;;
    head100 <- py_slice_to 100 body ;;
    comment_fragment <- py_add_str head100 "..." ;;
    comment' <- py_get payload "comment" (VDict []) ;;
    url <- py_get comment' "html_url" VNone ;;
    issue' <- py_get payload "issue" (VDict []) ;;
    issue_url <- py_get issue' "html_url" VNone ;;
    Ok [("action", action);
        ("issue_number", issue_number);
        ("repository", repo);
        ("repository_url", VStr repo_url);
        ("comment_fragment", comment_fragment);
        ("url", url);
        ("issue_url", issue_url)]
  else if py_eq_str event_type "CreateEvent" then
    ref_type <- py_get payload "ref_type" (VStr "unknown") ;;
    ref <- py_get payload "ref" (VStr "unknown") ;;
    Ok [("ref_type", ref_type);
        ("ref", ref);
        ("repository", repo);
        ("repository_url", VStr repo_url);
        ("url",
         VStr (if py_eq_str ref_type "branch" then repo_url ++ "/tree/" ++ py_str ref
               else if py_eq_str ref_type "tag"
                    then repo_url ++ "/releases/tag/" ++ py_str ref
                    else repo_url))]
  else if py_eq_str event_type "DeleteEvent" then
    ref_type <- py_get payload "ref_type" (VStr "unknown") ;;
    ref <- py_get payload "ref" (VStr "unknown") ;;
    Ok [("ref_type", ref_type);
        ("ref", ref);
        ("repository", repo);
        ("repository_url", VStr repo_url)]
  else if py_eq_str event_type "WatchEvent" then
    action <- py_get payload "action" (VStr "unknown") ;;
    Ok [("action", action);
        ("repository", repo);
        ("repository_url", VStr repo_url)]
  else
    Ok [("event_type", event_type);
        ("repository", repo);
        ("repository_url", VStr repo_url)].

Definition _simplify_event_details (event_type event : value) : M dict :=
  try_except (lift (simplify_try event_type event)) Exception
    (fun e =>
       log_exc WARNING ("Error simplifying " ++ py_str event_type ++ " event: ") e ;;;
       ret fallback_details).

(** The [try] block of [_get_human_readable_message]. *)
Definition describe_try (event_type : value) (details : dict) : result string :=
  if py_eq_str event_type "PushEvent" then
    commit_count <- dict_getitem details "commit_count" ;;
    repo <- dict_getitem details "repository" ;;
    ref <- dict_getitem details "ref" ;;
    branch <- py_replace ref "refs/heads/" "" ;;
    commit_messages <- dict_getitem details "commit_messages" ;;
    commit_msg <-
      (if py_truth commit_messages then
         commit_messages' <- dict_getitem details "commit_messages" ;;
         first <- py_index commit_messages' 0 ;;
         Ok (": " ++ py_str first)
       else Ok "") ;;
    plural <- py_gt commit_count 1 ;;
    Ok ("Pushed " ++ py_str commit_count ++ " commit" ++ (if plural then "s" else "")
        ++ " to " ++ py_str repo ++ "/" ++ branch ++ commit_msg)
  else if py_eq_str event_type "PullRequestEvent" then
    action <- dict_getitem details "action" ;;
    title <- dict_getitem details "title" ;;
    number <- dict_getitem details "number" ;;
    repo <- dict_getitem details "repository" ;;
    capitalized <- py_capitalize action ;;
    Ok (capitalized ++ " PR #" ++ py_str number ++ " in " ++ py_str repo
        ++ ": " ++ py_str title)
  else if py_eq_str event_type "IssuesEvent" then
    action <- dict_getitem details "action" ;;
    title <- dict_getitem details "title" ;;
    number <- dict_getitem details "number" ;;
    repo <- dict_getitem details "repository" ;;
    capitalized <- py_capitalize action ;;
    Ok (capitalized ++ " issue #" ++ py_str number ++ " in " ++ py_str repo
        ++ ": " ++ py_str title)
  else if py_eq_str event_type "IssueCommentEvent" then
    repo <- dict_getitem details "repository" ;;
    number <- dict_getitem details "issue_number" ;;
    comment <- dict_getitem details "comment_fragment" ;;
    Ok ("Commented on issue #" ++ py_str number ++ " in " ++ py_str repo
        ++ ": " ++ py_str comment)
  else if py_eq_str event_type "CreateEvent" then
    ref_type <- dict_getitem details "ref_type" ;;
    ref <- dict_getitem details "ref" ;;
    repo <- dict_getitem details "repository" ;;
    Ok ("Created " ++ py_str ref_type ++ " " ++ py_str ref ++ " in " ++ py_str repo)
  else if py_eq_str event_type "DeleteEvent" then
    ref_type <- dict_getitem details "ref_type" ;;
    ref <- dict_getitem details "ref" ;;
    repo <- dict_getitem details "repository" ;;
    Ok ("Deleted " ++ py_str ref_type ++ " " ++ py_str ref ++ " in " ++ py_str repo)
  else if py_eq_str event_type "WatchEvent" then
    repo <- dict_getitem details "repository" ;;
    Ok ("Starred repository " ++ py_str repo)
  else
    repo <- py_get (VDict details) "repository" (VStr "unknown repository") ;;
    Ok ("Performed " ++ py_str event_type ++ " on " ++ py_str repo).

Definition _get_human_readable_message (event_type : value) (details : dict)
  : M string :=
  try_except (lift (describe_try event_type details)) Exception
    (fun e =>
       log_exc WARNING ("Error creating message for " ++ py_str event_type ++ ": ") e ;;;
       ret ("Performed " ++ py_str event_type)).

(** ** Transport *)

(** What [session.get] hands back: the status line, the header fields (a
    case-insensitive mapping) and what [response.json()] gives. *)
Record response : Type := mk_response {
  status_code : Z;
  headers : list (string * string);
  json : result value
}.

(** The state of a [GitHubActivitySource]: the token behind the request
    headers, the organization filter and the session, i.e. what a GET of a
    URL with given request headers results in.  With them, the two
    functions of the standard library that the object calls on the reset
    time of the rate limit and whose result depends on the process:
    [datetime.fromtimestamp], which converts to the local time zone and
    raises where the platform cannot, and [str] of a [datetime]. *)
Record t : Type := mk_source {
  token : string;
  organization : option string;
  session_get : string -> list (string * string) -> result response;
  fromtimestamp : Z -> result datetime;
  str_of_reset : datetime -> string
}.

Definition request_headers (self : t) : list (string * string) :=
  [("Authorization", "token " ++ token self);
   ("Accept", "application/vnd.github.v3+json")].

Definition header_name_eqb (a b : string) : bool :=
  String.eqb (str_map ascii_lower a) (str_map ascii_lower b).

Fixpoint headers_lookup (k : string) (h : list (string * string)) : option string :=
  match h with
  | [] => None
  | (k', v) :: h' => if header_name_eqb k k' then Some v else headers_lookup k h'
  end.

Definition headers_get (h : list (string * string)) (k default : string) : string :=
  match headers_lookup k h with
  | Some v => v
  | None => default
  end.

(** [response.raise_for_status()]. *)
Definition raise_for_status (r : response) : result unit :=
  if (400 <=? status_code r) && (status_code r <? 600)
  then Raise (HTTPError (status_code r))
  else Ok tt.

(** The blanks that [int] and [float] skip around a numeral: tab to
    carriage return, the space, the next-line control (133) and the
    no-break space (160). *)
Definition is_space (c : ascii) : bool :=
  let n := nat_of_ascii c in
  ((9 <=? n)%nat && (n <=? 13)%nat) || (n =? 32)%nat || (n =? 133)%nat || (n =? 160)%nat.

Fixpoint str_lstrip (s : string) : string :=
  match s with
  | EmptyString => EmptyString
  | String c s' => if is_space c then str_lstrip s' else s
  end.

Fixpoint str_rev_onto (s acc : string) : string :=
  match s with
  | EmptyString => acc
  | String c s' => str_rev_onto s' (String c acc)
  end.

Definition str_strip (s : string) : string :=
  str_rev_onto (str_lstrip (str_rev_onto (str_lstrip s) EmptyString)) EmptyString.

Definition digit_of (c : ascii) : option Z :=
  let n := nat_of_ascii c in
  if (48 <=? n)%nat && (n <=? 57)%nat then Some (Z.of_nat (n - 48)) else None.

(** Decimal digits, single underscores allowed between two digits. *)
Fixpoint parse_digits (s : string) (acc : Z) (after_digit : bool) : option Z :=
  match s with
  | EmptyString => if after_digit then Some acc else None
  | String c s' =>
      match digit_of c with
      | Some d => parse_digits s' (10 * acc + d) true
      | None =>
          if Ascii.eqb c "_" && after_digit then parse_digits s' acc false
          else None
      end
  end.

Fixpoint count_digits (s : string) : nat :=
  match s with
  | EmptyString => O
  | String c s' =>
      match digit_of c with
      | Some _ => S (count_digits s')
      | None => count_digits s'
      end
  end.

(** The most digits that [int] reads from a string
    ([sys.get_int_max_str_digits()], as the interpreter starts). *)
Definition int_max_str_digits : nat := 4300.

(** [int(s)] for a string [s]. *)
Definition py_int (s : string) : result Z :=
  let parsed :=
    match str_strip s with
    | String "-" s' => option_map Z.opp (parse_digits s' 0 false)
    | String "+" s' => parse_digits s' 0 false
    | s' => parse_digits s' 0 false
    end in
  match parsed with
  | Some n => if (count_digits s <=? int_max_str_digits)%nat then Ok n else Raise ValueError
  | None => Raise ValueError
  end.

Definition _fetch_github_data (self : t) (url : string) : M value :=
  log DEBUG ("Fetching data from: " ++ url) ;;;
  try_except
    (response <~ lift (session_get self url (request_headers self)) ;;
     let rate_limit := headers_get (headers response) "X-RateLimit-Remaining" "unknown" in
     let rate_limit_reset := headers_get (headers response) "X-RateLimit-Reset" "unknown" in
     log DEBUG ("GitHub API rate limit remaining: " ++ rate_limit) ;;;
     (if (status_code response =? 403)%Z
         && match headers_lookup "X-RateLimit-Remaining" (headers response) with
            | Some remaining => String.eqb remaining "0"
            | None => false
            end
      then
        seconds <~ lift (py_int rate_limit_reset) ;;
        reset_time <~ lift (fromtimestamp self seconds) ;;
        log ERROR ("GitHub API rate limit exceeded. Reset time: "
                   ++ str_of_reset self reset_time)
      else ret tt) ;;;
     lift (raise_for_status response) ;;;
     lift (json response))
    is_RequestException
    (fun e => log_exc ERROR "Error fetching GitHub data: " e ;;; raise e).

Definition validate_credentials (self : t) : M bool :=
  log DEBUG "Validating GitHub credentials" ;;;
  try_except
    (_fetch_github_data self "https://api.github.com/user" ;;;
     log INFO "GitHub credentials validated successfully" ;;;
     ret true)
    is_RequestException
    (fun e => log_exc ERROR "GitHub credential validation failed: " e ;;; ret false).

(** ** Fetching activities *)

(** The organization filter is on when [self.organization] is a non-empty
    string. *)
Definition organization_filter (self : t) : option string :=
  match organization self with
  | Some org => if String.eqb org EmptyString then None else Some org
  | None => None
  end.

Definition _is_org_event (self : t) (event : value) : result bool :=
  match organization_filter self with
  | None => Ok true
  | Some org =>
      repo_obj <- py_get event "repo" (VDict []) ;;
      repo_name <- py_get repo_obj "name" (VStr "") ;;
      py_startswith repo_name (org ++ "/")
  end.

Section Activities.

(** [datetime.fromisoformat] and [datetime.isoformat] of the standard
    library. *)
Variable fromisoformat : string -> result datetime.
Variable isoformat : datetime -> string.

(** One turn of the loop over the events: the activity to append, or [None]
    where the loop goes on to the next event. *)
Definition process_event (self : t) (event : value) : M (option Activity) :=
  try_except
    (keep <~ lift (_is_org_event self event) ;;
     if negb keep then ret None
     else
       event_type <~ lift (py_getitem event "type") ;;
       simplified_details <~ _simplify_event_details event_type event ;;
       event_type' <~ lift (py_getitem event "type") ;;
       human_message <~ _get_human_readable_message event_type' simplified_details ;;
       created_at <~ lift (py_getitem event "created_at") ;;
       iso <~ lift (py_replace created_at "Z" "+00:00") ;;
       when <~ lift (fromisoformat iso) ;;
       event_type'' <~ lift (py_getitem event "type") ;;
       ret (Some (mk_Activity "github" when event_type'' simplified_details
                              human_message)))
    Exception
    (fun e => log_exc WARNING "Failed to process event: " e ;;; ret None).

Fixpoint process_events (self : t) (events : list value) (activities : list Activity)
  : M (list Activity) :=
  match events with
  | [] => ret activities
  | event :: rest =>
      produced <~ process_event self event ;;
      process_events self rest
        (match produced with
         | Some activity => (activities ++ [activity])%list
         | None => activities
         end)
  end.

Definition date_str (d : option datetime) : string :=
  match d with
  | Some d' => isoformat d' ++ "Z"
  | None => "None"
  end.

Definition get_activities (self : t) (username : string)
    (start_date end_date : option datetime) : M (list Activity) :=
  log INFO ("Fetching GitHub activities for user: " ++ username) ;;;
  (match organization_filter self with
   | Some org => log INFO ("Filtering for organization: " ++ org)
   | None => ret tt
   end) ;;;
  let start_date_str := date_str start_date in
  let end_date_str := date_str end_date in
  log DEBUG ("Date range: " ++ start_date_str ++ " to " ++ end_date_str) ;;;
  let url := "https://api.github.com/users/" ++ username ++ "/events" in
  events_data <~
    try_except (_fetch_github_data self url) Exception
      (fun e => log_exc ERROR "Failed to fetch GitHub events: " e ;;; raise e) ;;
  events <~ lift (py_iter events_data) ;;
  activities <~ process_events self events [] ;;
  log INFO ("Retrieved " ++ str_of_Z (Z.of_nat (List.length activities))
            ++ " GitHub activities") ;;;
  ret activities.

End Activities.

End GitHubActivitySource.

(** * The tracker ([src/core/base.py]) *)

Module ActivityTracker.

(** The protocol [ActivitySource]: what the tracker calls on a source. *)
Record ActivitySource : Type := mk_ActivitySource {
  class_name : string;
  get_activities :
    string -> option datetime -> option datetime -> M (list Activity);
  validate_credentials : M bool
}.

(** The state of an [ActivityTracker]: the registered sources, in the order
    of their registration. *)
Record t : Type := mk_tracker {
  sources : list ActivitySource
}.

Definition __init__ : t := mk_tracker [].

(** [sorted(l, key=key, reverse=True)] for keys that are [datetime]s: a
    stable sort, also when reversed.  An element goes in front of the first
    one whose key is not greater than its own.  The keys are compared with
    [<], and the exception of a comparison leaves the sort.  Python compares
    in another order; the outcome is the same, since a stable descending
    order is unique and no sort can place a naive key among aware ones
    without comparing two keys of different kind. *)
Section Sorted.

Context {A : Type}.
Variable key : A -> datetime.

Fixpoint insert_reverse (a : A) (l : list A) : result (list A) :=
  match l with
  | [] => Ok [a]
  | b :: l' =>
      less <- datetime_lt (key a) (key b) ;;
      if less then
        rest <- insert_reverse a l' ;;
        Ok (b :: rest)
      else Ok (a :: l)
  end.

Fixpoint sorted_reverse (l : list A) : result (list A) :=
  match l with
  | [] => Ok []
  | a :: l' =>
      sorted_tail <- sorted_reverse l' ;;
      insert_reverse a sorted_tail
  end.

End Sorted.

Section Tracker.

(** [str(d)] of a [datetime], as an f-string shows it. *)
Variable str_of_datetime : datetime -> string.

Definition str_of_date (d : option datetime) : string :=
  match d with
  | Some d' => str_of_datetime d'
  | None => "None"
  end.

(** [add_source] returns the tracker with the source appended.  A value of
    the record [ActivitySource] has both methods of the protocol, so the
    [isinstance] test passes. *)
Definition add_source (self : t) (source : ActivitySource) : M t :=
  log DEBUG ("Adding new source: " ++ class_name source) ;;;
  try_except
    (valid <~ validate_credentials source ;;
     if valid then
       log INFO ("Successfully added source: " ++ class_name source) ;;;
       ret (mk_tracker (sources self ++ [source])%list)
     else
       log ERROR ("Invalid credentials for source: " ++ class_name source) ;;;
       raise ValueError)
    Exception
    (fun e => log_exc ERROR "Error adding source: " e ;;; raise e).

(** The loop over the registered sources; [activities] is the list built so
    far. *)
Fixpoint fetch_sources (remaining : list ActivitySource) (username : string)
    (start_date end_date : option datetime) (activities : list Activity)
  : M (list Activity) :=
  match remaining with
  | [] => ret activities
  | source :: rest =>
      activities' <~
        try_except
          (log DEBUG ("Fetching from source: " ++ class_name source) ;;;
           source_activities <~ get_activities source username start_date end_date ;;
           log DEBUG ("Retrieved "
                      ++ str_of_Z (Z.of_nat (List.length source_activities))
                      ++ " activities from " ++ class_name source) ;;;
           ret (activities ++ source_activities)%list)
          Exception
          (fun e =>
             log_exc ERROR ("Error fetching activities from " ++ class_name source
                            ++ ": ") e ;;;
             ret activities) ;;
      fetch_sources rest username start_date end_date activities'
  end.

Definition get_all_activities (self : t) (username : string)
    (start_date end_date : option datetime) : M (list Activity) :=
  log INFO ("Fetching activities for user: " ++ username) ;;;
  log DEBUG ("Date range: " ++ str_of_date start_date ++ " to "
             ++ str_of_date end_date) ;;;
  activities <~ fetch_sources (sources self) username start_date end_date [] ;;
  sorted_activities <~ lift (sorted_reverse timestamp activities) ;;
  log INFO ("Retrieved total of "
            ++ str_of_Z (Z.of_nat (List.length sorted_activities)) ++ " activities") ;;;
  ret sorted_activities.

End Tracker.

End ActivityTracker.

(** A [GitHubActivitySource] as a source of the tracker. *)
Definition github_source (fromisoformat : string -> result datetime)
    (isoformat : datetime -> string) (self : GitHubActivitySource.t)
  : ActivityTracker.ActivitySource :=
  ActivityTracker.mk_ActivitySource "GitHubActivitySource"
    (GitHubActivitySource.get_activities fromisoformat isoformat self)
    (GitHubActivitySource.validate_credentials self).

(** * Vocabulary of the statements and inputs of the examples *)

Import GitHubActivitySource.

(** The record that the handler of [_simplify_event_details] logs. *)
Definition simplify_warning (event_type : value) (e : exn) : log_record :=
  mk_log WARNING ("Error simplifying " ++ py_str event_type ++ " event: ") (Some e).

(** The keys that [_get_human_readable_message] reads by subscript,
    [details[key]], for an event type. *)
Definition required_keys (event_type : value) : list string :=
  if py_eq_str event_type "PushEvent" then
    ["commit_count"; "repository"; "ref"; "commit_messages"]
  else if py_eq_str event_type "PullRequestEvent" then
    ["action"; "title"; "number"; "repository"]
  else if py_eq_str event_type "IssuesEvent" then
    ["action"; "title"; "number"; "repository"]
  else if py_eq_str event_type "IssueCommentEvent" then
    ["repository"; "issue_number"; "comment_fragment"]
  else if py_eq_str event_type "CreateEvent" then
    ["ref_type"; "ref"; "repository"]
  else if py_eq_str event_type "DeleteEvent" then
    ["ref_type"; "ref"; "repository"]
  else if py_eq_str event_type "WatchEvent" then
    ["repository"]
  else [].

(** The record that the handler of [_get_human_readable_message] logs. *)
Definition describe_warning (event_type : value) (e : exn) : log_record :=
  mk_log WARNING ("Error creating message for " ++ py_str event_type ++ ": ") (Some e).

(** The text of a string before its first line feed. *)
Fixpoint line1 (s : string) : string :=
  match s with
  | EmptyString => EmptyString
  | String c s' => if Ascii.eqb c LF then EmptyString else String c (line1 s')
  end.

(** A commit is a mapping whose message is a string. *)
Definition commit_message (commit : value) (message : string) : Prop :=
  exists c, commit = VDict c /\ dict_get c "message" (VStr "") = VStr message.

(** A push event as the feed delivers it: [repo] and [payload] are mappings
    (or absent), the ref is a string (or absent), the commits a list (or
    absent) of commits. *)
Record push_event (event : value) (repo payload : dict) (ref : string)
    (commits : list value) (messages : list string) : Prop := {
  push_repo : py_get event "repo" (VDict []) = Ok (VDict repo);
  push_payload : py_get event "payload" (VDict []) = Ok (VDict payload);
  push_ref : dict_get payload "ref" (VStr "unknown") = VStr ref;
  push_commits : dict_get payload "commits" (VList []) = VList commits;
  push_messages : Forall2 commit_message (firstn 3 commits) messages
}.

(** A commit with the given message. *)
Definition commit_of (message : string) : value := VDict [("message", VStr message)].

(** A push of four commits to [main]. *)
Definition push_to_main : value :=
  VDict [("type", VStr "PushEvent");
         ("repo", VDict [("name", VStr "octo/hello")]);
         ("payload",
          VDict [("ref", VStr "refs/heads/main");
                 ("before", VStr "1f2e3d");
                 ("head", VStr "4c5b6a");
                 ("commits",
                  VList [commit_of (String "F" (String "i" (String "x" (String LF "body"))));
                         commit_of "Add test";
                         commit_of "Bump";
                         commit_of "Tidy"])])].

(** A push that carries no commit. *)
Definition push_without_commits : value :=
  VDict [("type", VStr "PushEvent");
         ("repo", VDict [("name", VStr "octo/hello")]);
         ("payload",
          VDict [("ref", VStr "refs/heads/main");
                 ("before", VStr "1f2e3d");
                 ("head", VStr "1f2e3d");
                 ("commits", VList [])])].

(** [s[n:]]. *)
Fixpoint str_drop (n : nat) (s : string) : string :=
  match n, s with
  | O, _ => s
  | S _, EmptyString => EmptyString
  | S n', String _ s' => str_drop n' s'
  end.

(** An issue comment event as the feed delivers it: [repo], [payload], the
    issue and the comment are mappings (or absent); [body] is the body of the
    comment, the empty string where the comment or its body is absent. *)
Definition issue_comment_event (event : value) (body : value) : Prop :=
  exists repo payload issue comment : dict,
    py_get event "repo" (VDict []) = Ok (VDict repo) /\
    py_get event "payload" (VDict []) = Ok (VDict payload) /\
    dict_get payload "issue" (VDict []) = VDict issue /\
    dict_get payload "comment" (VDict []) = VDict comment /\
    dict_get comment "body" (VStr "") = body.

(** [c * n]. *)
Fixpoint str_repeat (c : ascii) (n : nat) : string :=
  match n with
  | O => EmptyString
  | S n' => String c (str_repeat c n')
  end.

(** A comment of 100 [a] and then 50 [b]. *)
Definition long_body : string := str_repeat "a" 100 ++ str_repeat "b" 50.

(** An issue comment event with that body. *)
Definition long_comment : value :=
  VDict [("type", VStr "IssueCommentEvent");
         ("repo", VDict [("name", VStr "octo/hello")]);
         ("payload",
          VDict [("action", VStr "created");
                 ("issue", VDict [("number", VInt 7)]);
                 ("comment", VDict [("body", VStr long_body)])])].

(** An issue comment event whose payload has no comment. *)
Definition comment_without_body : value :=
  VDict [("type", VStr "IssueCommentEvent");
         ("repo", VDict [("name", VStr "octo/hello")]);
         ("payload", VDict [("action", VStr "created")])].

(** The rate-limit branch of [_fetch_github_data] is entered. *)
Definition rate_limit_exceeded (r : response) : bool :=
  (status_code r =? 403)
  && match headers_lookup "X-RateLimit-Remaining" (headers r) with
     | Some remaining => String.eqb remaining "0"
     | None => false
     end.

(** A 403 response that reports an exhausted rate limit and carries no
    [X-RateLimit-Reset] header. *)
Definition rate_limited : response :=
  mk_response 403
    [("Content-Type", "application/json"); ("X-RateLimit-Remaining", "0")]
    (Ok (VDict [("message", VStr "API rate limit exceeded")])).

(** A process whose local time zone is UTC and that converts every time
    stamp. *)
Definition utc_fromtimestamp (seconds : Z) : result datetime :=
  Ok (mk_datetime (seconds * 1000000) None).

(** A text for a [datetime]: its wall clock in microseconds and, for an
    aware one, its offset. *)
Definition show_datetime (d : datetime) : string :=
  match utcoffset d with
  | Some offset => str_of_Z (wall d) ++ "+" ++ str_of_Z offset
  | None => str_of_Z (wall d)
  end.

(** A source whose session answers every request with it. *)
Definition rate_limited_source : GitHubActivitySource.t :=
  mk_source "ghp_token" None (fun _ _ => Ok rate_limited)
    utc_fromtimestamp show_datetime.

(** The event and the source of [tests/test_github_tracker.py]; the time
    is 2024-02-20T12:00:00 on UTC. *)
Definition test_push_event : value :=
  VDict [("type", VStr "PushEvent");
         ("created_at", VStr "2024-02-20T12:00:00Z");
         ("payload", VDict [("commits", VList [VDict [("message", VStr "test commit")]])])].

Definition mock_github_source : GitHubActivitySource.t :=
  mk_source "dummy_token" None
    (fun _ _ => Ok (mk_response 200 [] (Ok (VList [test_push_event]))))
    utc_fromtimestamp show_datetime.

Definition noon_2024_02_20 : datetime := mk_datetime 1708430400000000 (Some 0).

(** What [get_activities] does after it has logged the date range. *)
Definition fetch_and_process (fromisoformat : string -> result datetime)
    (self : GitHubActivitySource.t) (username : string) : M (list Activity) :=
  let url := "https://api.github.com/users/" ++ username ++ "/events" in
  events_data <~
    try_except (_fetch_github_data self url) Exception
      (fun e => log_exc ERROR "Failed to fetch GitHub events: " e ;;; raise e) ;;
  events <~ lift (py_iter events_data) ;;
  activities <~ process_events fromisoformat self events [] ;;
  log INFO ("Retrieved " ++ str_of_Z (Z.of_nat (List.length activities))
            ++ " GitHub activities") ;;;
  ret activities.

Import ActivityTracker.

(** The timestamps of [l] can be ordered: they are all aware or all
    naive. *)
Definition comparable {A : Type} (key : A -> datetime) (l : list A) : bool :=
  forallb (fun a => aware (key a)) l || forallb (fun a => negb (aware (key a))) l.

(** What the place of an element among comparable ones rests on. *)
Definition sort_key {A : Type} (key : A -> datetime) (a : A) : Z := moment (key a).

(** The stable sort in descending order of an integer key. *)
Fixpoint insert_descending {A : Type} (key : A -> Z) (a : A) (l : list A) : list A :=
  match l with
  | [] => [a]
  | b :: l' => if key a <? key b then b :: insert_descending key a l' else a :: l
  end.

Fixpoint sort_descending {A : Type} (key : A -> Z) (l : list A) : list A :=
  match l with
  | [] => []
  | a :: l' => insert_descending key a (sort_descending key l')
  end.

(** [l] is in descending order of its keys. *)
Definition descending {A : Type} (key : A -> Z) (l : list A) : Prop :=
  StronglySorted (fun a b => key b <= key a) l.

(** The elements of [l] whose key is [k], in their order in [l]. *)
Definition keyed {A : Type} (key : A -> Z) (k : Z) (l : list A) : list A :=
  filter (fun a => key a =? k) l.

(** What a source contributes: its activities, or nothing when it raises. *)
Definition contribution (username : string) (start_date end_date : option datetime)
    (source : ActivitySource) : list Activity :=
  match returned (get_activities source username start_date end_date) with
  | Ok source_activities => source_activities
  | Raise _ => []
  end.

(** The activities of the sources, one source after the other. *)
Definition retrieved (username : string) (start_date end_date : option datetime)
    (registered : list ActivitySource) : list Activity :=
  flat_map (contribution username start_date end_date) registered.

(** The aware [datetime] of an instant, on UTC. *)
Definition utc (instant : Z) : datetime := mk_datetime instant (Some 0).

(** A starring of the repository [text] at the time [when]. *)
Definition activity_at (when : datetime) (text : string) : Activity :=
  mk_Activity "github" when (VStr "WatchEvent")
    [("action", VStr "started"); ("repository", VStr text);
     ("repository_url", VStr ("https://github.com/" ++ text))]
    ("Starred repository " ++ text).

(** A source whose [get_activities] has the given outcome. *)
Definition source_giving (name : string) (outcome : result (list Activity))
  : ActivitySource :=
  mk_ActivitySource name (fun _ _ _ => lift outcome) (ret true).

Definition early : Activity := activity_at (utc 1000000) "octo/one".
Definition late : Activity := activity_at (utc 3000000) "octo/three".






(** * Vocabulary of the further statements *)

(** The event types with an extraction rule of their own. *)
Definition recognized (event_type : value) : bool :=
  py_eq_str event_type "PushEvent"
  || py_eq_str event_type "PullRequestEvent"
  || py_eq_str event_type "IssuesEvent"
  || py_eq_str event_type "IssueCommentEvent"
  || py_eq_str event_type "CreateEvent"
  || py_eq_str event_type "DeleteEvent"
  || py_eq_str event_type "WatchEvent".

(** The event types whose message capitalizes the action. *)
Definition capitalizes_action (event_type : value) : bool :=
  py_eq_str event_type "PullRequestEvent" || py_eq_str event_type "IssuesEvent".

(** [line] is [message] up to its first line feed. *)
Definition first_line_of (message line : string) : Prop :=
  str_contains_char LF line = false /\
  (message = line \/ exists rest : string, message = line ++ String LF rest).

(** Simplifying an event and describing the details, as [get_activities]
    does for each event. *)
Definition simplify_then_describe (event_type event : value) : M string :=
  details <~ _simplify_event_details event_type event ;;
  _get_human_readable_message event_type details.

(** The two fields every extraction rule starts from: [repo] and [payload]
    are mappings, or absent. *)
Definition event_fields (event : value) (repo payload : dict) : Prop :=
  py_get event "repo" (VDict []) = Ok (VDict repo) /\
  py_get event "payload" (VDict []) = Ok (VDict payload).

(** A tag created in [octo/hello]. *)
Definition tag_created : value :=
  VDict [("type", VStr "CreateEvent");
         ("repo", VDict [("name", VStr "octo/hello")]);
         ("payload", VDict [("ref_type", VStr "tag"); ("ref", VStr "v1.0")])].

(** An event whose payload is [null]. *)
Definition event_without_payload : value :=
  VDict [("repo", VDict [("name", VStr "octo/hello")]); ("payload", VNone)].

(** [event] names a repository of the organization [org]: its [repo] is a
    mapping whose [name] is a string that begins with [org/]. *)
Definition in_organization (org : string) (event : value) : bool :=
  match event with
  | VDict fields =>
      match dict_get fields "repo" (VDict []) with
      | VDict repo =>
          match dict_get repo "name" (VStr "") with
          | VStr name => prefix (org ++ "/") name
          | _ => false
          end
      | _ => false
      end
  | _ => false
  end.

(** A source like [self] whose session answers every request with the
    status 200 and the JSON list [events]. *)
Definition with_feed (self : GitHubActivitySource.t) (events : list value)
  : GitHubActivitySource.t :=
  mk_source (token self) (organization self)
    (fun _ _ => Ok (mk_response 200 [] (Ok (VList events))))
    (fromtimestamp self) (str_of_reset self).

(** What the loop of [get_activities] appends for one event. *)
Definition produced (fromisoformat : string -> result datetime)
    (self : GitHubActivitySource.t) (event : value) : list Activity :=
  match returned (process_event fromisoformat self event) with
  | Ok (Some activity) => [activity]
  | _ => []
  end.

(** A source that keeps the events of [acme]. *)
Definition acme_source : GitHubActivitySource.t :=
  mk_source "ghp_token" (Some "acme") (fun _ _ => Raise ConnectionError)
    utc_fromtimestamp show_datetime.

(** A starring of [acme/widgets] and one of [other/widgets]. *)
Definition starred (repository created_at : string) : value :=
  VDict [("type", VStr "WatchEvent");
         ("created_at", VStr created_at);
         ("repo", VDict [("name", VStr repository)]);
         ("payload", VDict [("action", VStr "started")])].

(** An event without time stamp. *)
Definition undated : value :=
  VDict [("type", VStr "WatchEvent");
         ("repo", VDict [("name", VStr "acme/widgets")]);
         ("payload", VDict [("action", VStr "started")])].

(** The [try] block of the loop of [get_activities], without its log
    records. *)
Definition event_outcome (fromisoformat : string -> result datetime)
    (self : GitHubActivitySource.t) (event : value) : result (option Activity) :=
  keep <- _is_org_event self event ;;
  if negb keep then Ok None
  else
    event_type <- py_getitem event "type" ;;
    simplified_details <- returned (_simplify_event_details event_type event) ;;
    human_message <-
      returned (_get_human_readable_message event_type simplified_details) ;;
    created_at <- py_getitem event "created_at" ;;
    iso <- py_replace created_at "Z" "+00:00" ;;
    when <- fromisoformat iso ;;
    Ok (Some (mk_Activity "github" when event_type simplified_details human_message)).

(** A source whose session cannot connect. *)
Definition unreachable_source : GitHubActivitySource.t :=
  mk_source "ghp_token" None (fun _ _ => Raise ConnectionError)
    utc_fromtimestamp show_datetime.

(** A source whose session answers with the status 200 and a JSON object. *)
Definition object_source : GitHubActivitySource.t :=
  mk_source "ghp_token" None
    (fun _ _ => Ok (mk_response 200 [] (Ok (VDict [("message", VStr "Not Found")]))))
    utc_fromtimestamp show_datetime.

(** A 403 response of an exhausted rate limit, as GitHub sends it. *)
Definition rate_limited_until (reset : string) : response :=
  mk_response 403
    [("X-RateLimit-Remaining", "0"); ("X-RateLimit-Reset", reset)]
    (Ok (VDict [("message", VStr "API rate limit exceeded")])).

(** A source whose session answers every request with [r]. *)
Definition source_answering (r : response) : GitHubActivitySource.t :=
  mk_source "ghp_token" None (fun _ _ => Ok r) utc_fromtimestamp show_datetime.


(** A tracker none of whose sources can be reached. *)
Definition all_sources_down : ActivityTracker.t :=
  mk_tracker [source_giving "Broken" (Raise ConnectionError);
              source_giving "Stale" (Raise Timeout)].


(** * The configuration ([src/config.py]) *)

(** The process environment, after [load_dotenv] has merged the [.env]
    file into it. *)
Definition environment : Type := string -> option string.

Definition get_github_token (environ : environment) : result string :=
  match environ "GITHUB_TOKEN" with
  | Some token => if String.eqb token "" then Raise ValueError else Ok token
  | None => Raise ValueError
  end.

Definition get_env_var (environ : environment) (key : string) (default : string)
  : string :=
  match environ key with
  | Some v => v
  | None => default
  end.

(** * Logging set-up ([git_stalker/core/logging.py]) *)

Inductive handler : Type :=
| StreamHandler (format : string)
| FileHandler (path : string) (format : string).

Record logger : Type := mk_logger {
  logger_name : string;
  logger_level : string;
  handlers : list handler
}.

Definition DEFAULT_LOG_LEVEL : string := "INFO".

(** The level names that [Logger.setLevel] knows. *)
Definition level_names : list string :=
  ["CRITICAL"; "FATAL"; "ERROR"; "WARN"; "WARNING"; "INFO"; "DEBUG"; "NOTSET"].

(** [s.upper()].  The capital of the sharp s (223) is [SS]; the capitals of
    the micro sign (181) and of the y with diaeresis (255) are no Latin-1
    characters, and a string with one of the two is outside the strings
    modelled here (no level name has a character outside ASCII). *)
Fixpoint str_upper (s : string) : string :=
  match s with
  | EmptyString => EmptyString
  | String c s' =>
      if (nat_of_ascii c =? 223)%nat then "SS" ++ str_upper s'
      else String (ascii_upper c) (str_upper s')
  end.

(** [setup_logging]: the handlers that the logger had are cleared, so the
    logger it returns has the console handler and, with a log file, the file
    handler.  [open_file] is what creating the directory of the log file and
    opening the file results in. *)
Definition setup_logging (environ : environment) (open_file : string -> result unit)
    (log_file : option string) (module : string) : result logger :=
  let level := str_upper (get_env_var environ "LOG_LEVEL" DEFAULT_LOG_LEVEL) in
  if existsb (String.eqb level) level_names then
    let console_handler := StreamHandler "%(levelname)s - %(message)s" in
    match log_file with
    | Some path =>
        _ <- open_file path ;;
        Ok (mk_logger module level
              [console_handler;
               FileHandler path
                 "%(asctime)s - %(name)s - %(levelname)s - %(message)s"])
    | None => Ok (mk_logger module level [console_handler])
    end
  else Raise ValueError.

(** * Construction of the GitHub source ([src/core/github.py]) *)

Definition is_digit (c : ascii) : bool :=
  match digit_of c with
  | Some _ => true
  | None => false
  end.

Definition starts_with_digit (s : string) : bool :=
  match s with
  | String c _ => is_digit c
  | EmptyString => false
  end.

(** What is left of [s] after its leading digits; one underscore may stand
    between two digits. *)
Fixpoint skip_digitpart (after_digit : bool) (s : string) : string :=
  match s with
  | EmptyString => s
  | String c s' =>
      if is_digit c then skip_digitpart true s'
      else if Ascii.eqb c "_" && after_digit && starts_with_digit s'
           then skip_digitpart false s'
           else s
  end.

(** An exponent, or nothing. *)
Definition exponent_or_end (s : string) : bool :=
  match s with
  | EmptyString => true
  | String c s' =>
      if Ascii.eqb c "e" || Ascii.eqb c "E" then
        let digits :=
          match s' with
          | String "+" s'' => s''
          | String "-" s'' => s''
          | _ => s'
          end in
        starts_with_digit digits
        && String.eqb (skip_digitpart false digits) EmptyString
      else false
  end.

(** The literals that [float] accepts, sign and blanks apart. *)
Definition float_body (s : string) : bool :=
  let lower := str_map ascii_lower s in
  if String.eqb lower "inf" || String.eqb lower "infinity" || String.eqb lower "nan"
  then true
  else
    let after_int := skip_digitpart false s in
    match after_int with
    | String "." fraction =>
        (starts_with_digit s || starts_with_digit fraction)
        && exponent_or_end (skip_digitpart false fraction)
    | _ => starts_with_digit s && exponent_or_end after_int
    end.

(** [float(s)]: the number is kept as the literal it was read from, blanks
    apart. *)
Definition py_float (s : string) : result string :=
  let stripped := str_strip s in
  let body :=
    match stripped with
    | String "-" s' => s'
    | String "+" s' => s'
    | s' => s'
    end in
  if float_body body then Ok stripped else Raise ValueError.

(** The retry strategy mounted on a session. *)
Record Retry : Type := mk_Retry {
  total : Z;
  backoff_factor : string;
  status_forcelist : list Z
}.

(** The network as the sessions see it: what a GET results in, for a session
    with or without a retry strategy. *)
Definition network : Type :=
  option Retry -> string -> list (string * string) -> result response.

(** [GitHubActivitySource.__init__].  [clock] and [str_of_datetime] are
    [datetime.fromtimestamp] and [str] of a [datetime] in the process that
    builds the object; [str_of_float] gives [str(float(s))] for a literal
    [s] that [float] accepts. *)
Definition GitHubActivitySource_init (environ : environment) (net : network)
    (clock : Z -> result datetime) (str_of_datetime : datetime -> string)
    (str_of_float : string -> string)
    (token : string) (organization : option string) : M GitHubActivitySource.t :=
  (match organization with
   | Some org =>
       if String.eqb org EmptyString then ret tt
       else log INFO ("Initialized GitHub source for organization: " ++ org)
   | None => ret tt
   end) ;;;
  retry_total <~ lift (py_int (get_env_var environ "GITHUB_RETRY_TOTAL" "0")) ;;
  retry_backoff <~ lift (py_float (get_env_var environ "GITHUB_RETRY_BACKOFF" "0.1")) ;;
  if retry_total >? 0 then
    let retry_strategy := mk_Retry retry_total retry_backoff [429; 500; 502; 503; 504] in
    log DEBUG ("Configured request retries: total=" ++ str_of_Z retry_total
               ++ ", backoff=" ++ str_of_float retry_backoff) ;;;
    ret (mk_source token organization (net (Some retry_strategy)) clock str_of_datetime)
  else ret (mk_source token organization (net None) clock str_of_datetime).

(** * The command line ([src/cli/main.py]) *)

(** What the command depends on outside the program: the environment, the
    network, the file system behind the log file, the console (a call of
    [console.print] may raise on the markup of its argument), and the
    functions of the standard library on dates and on floats
    ([clock] is [datetime.fromtimestamp], [str_of_float] the text of the
    float read from a literal). *)
Record world : Type := mk_world {
  environ : environment;
  net : network;
  open_file : string -> result unit;
  console_print : string -> result unit;
  strptime : string -> result datetime;
  strftime : datetime -> string;
  str_of_datetime : datetime -> string;
  fromisoformat : string -> result datetime;
  isoformat : datetime -> string;
  clock : Z -> result datetime;
  str_of_float : string -> string
}.

(** A command prints, logs and returns or raises: the arguments of the calls
    of [console.print] that went through, the log records, the result. *)
Definition IO (A : Type) : Type := (list string * M A)%type.

Definition io_lift {A : Type} (c : M A) : IO A := ([], c).

Definition io_bind {A B : Type} (c : IO A) (k : A -> IO B) : IO B :=
  match c with
  | (p1, (l1, Ok a)) =>
      match k a with
      | (p2, (l2, r)) => ((p1 ++ p2)%list, ((l1 ++ l2)%list, r))
      end
  | (p1, (l1, Raise e)) => (p1, (l1, Raise e))
  end.

Notation "x <<- c ;; k" := (io_bind c (fun x => k))
  (at level 61, c at next level, right associativity).

Definition io_try {A : Type} (body : IO A) (cls : exn -> bool)
    (handler : exn -> IO A) : IO A :=
  match body with
  | (p1, (l1, Ok a)) => (p1, (l1, Ok a))
  | (p1, (l1, Raise e)) =>
      if cls e then
        match handler e with
        | (p2, (l2, r)) => ((p1 ++ p2)%list, ((l1 ++ l2)%list, r))
        end
      else (p1, (l1, Raise e))
  end.

Fixpoint io_for {A : Type} (l : list A) (body : A -> IO unit) : IO unit :=
  match l with
  | [] => io_lift (ret tt)
  | a :: l' => _ <<- body a ;; io_for l' body
  end.

Definition printed {A : Type} (c : IO A) : list string := fst c.
Definition outcome {A : Type} (c : IO A) : result A := returned (snd c).

(** [console.print(s)]. *)
Definition print (w : world) (s : string) : IO unit :=
  match console_print w s with
  | Ok _ => ([s], ret tt)
  | Raise e => ([], raise e)
  end.

(** [x if x else None] for an optional string. *)
Definition if_given (x : option string) : option string :=
  match x with
  | Some s => if String.eqb s EmptyString then None else Some s
  | None => None
  end.

(** [datetime.strptime(d, "%Y-%m-%d") if d else None]. *)
Definition parse_date (w : world) (d : option string) : result (option datetime) :=
  match if_given d with
  | Some s => when <- strptime w s ;; Ok (Some when)
  | None => Ok None
  end.

(** The body of the loop that displays the activities. *)
Definition print_activity (w : world) (output_format : string) (activity : Activity)
  : IO unit :=
  if String.eqb output_format "pretty" then
    _ <<- print w ("[bold blue]" ++ strftime w (timestamp activity) ++ "[/bold blue]") ;;
    _ <<- print w ("[bold]" ++ source activity ++ "[/bold]: " ++ message activity) ;;
    print w ""
  else
    _ <<- print w ("[bold]" ++ source activity ++ "[/bold]: " ++ py_str (type activity)) ;;
    _ <<- print w ("  Time: " ++ str_of_datetime w (timestamp activity)) ;;
    print w ("  Details: " ++ py_repr (VDict (details activity))
             ++ String LF EmptyString).

Definition track_activity (w : world) (username : string)
    (organization start_date end_date : option string) (output_format : string)
    (log_file : option string) : IO unit :=
  let log_path := if_given log_file in
  logger <<- io_lift (lift (setup_logging (environ w) (open_file w) log_path
                             "git_stalker")) ;;
  start <<- io_lift (lift (parse_date w start_date)) ;;
  end_ <<- io_lift (lift (parse_date w end_date)) ;;
  io_try
    (let tracker := ActivityTracker.__init__ in
     github_token <<- io_lift (lift (get_github_token (environ w))) ;;
     github_source' <<-
       io_lift (GitHubActivitySource_init (environ w) (net w) (clock w)
                  (str_of_datetime w) (str_of_float w) github_token organization) ;;
     tracker' <<-
       io_lift (add_source tracker
                  (github_source (fromisoformat w) (isoformat w) github_source')) ;;
     activities <<-
       io_lift (get_all_activities (str_of_datetime w) tracker' username start end_) ;;
     io_for activities (print_activity w output_format))
    Exception
    (fun e => io_lift (log_exc ERROR "Error in track_activity: " e ;;; raise e)).

(** A world without token: nothing is set in the environment and the
    network is down.  The process is on UTC, and a float shows as the
    literal it was read from, as the default [0.1] does. *)
Definition bare_world : world :=
  mk_world (fun _ => None) (fun _ _ _ => Raise ConnectionError)
    (fun _ => Ok tt) (fun _ => Ok tt) (fun _ => Raise ValueError)
    show_datetime show_datetime (fun _ => Ok noon_2024_02_20) show_datetime
    utc_fromtimestamp (fun literal => literal).

(** A world with a token and the given network. *)
Definition world_with (n : network) : world :=
  mk_world (fun key => if String.eqb key "GITHUB_TOKEN" then Some "ghp_token" else None)
    n (fun _ => Ok tt) (fun _ => Ok tt) (fun _ => Raise ValueError)
    show_datetime show_datetime (fun _ => Ok noon_2024_02_20) show_datetime
    utc_fromtimestamp (fun literal => literal).

(** A network that rejects the token. *)
Definition unauthorized : network :=
  fun _ _ _ => Ok (mk_response 401 [] (Ok (VDict [("message", VStr "Bad credentials")]))).

(** A network that knows the token and nothing else: the profile is served,
    every other request times out. *)
Definition profile_only : network :=
  fun _ url _ =>
    if String.eqb url "https://api.github.com/user"
    then Ok (mk_response 200 [] (Ok (VDict [("login", VStr "octocat")])))
    else Raise Timeout.

(** A network that serves the profile and, as every feed, the event of the
    tests. *)
Definition serving_test_event : network :=
  fun _ url _ =>
    if String.eqb url "https://api.github.com/user"
    then Ok (mk_response 200 [] (Ok (VDict [("login", VStr "octocat")])))
    else Ok (mk_response 200 [] (Ok (VList [test_push_event]))).

(** The steps of the [try] statement of the command up to the display. *)
Definition gathered (w : world) (username : string) (organization : option string)
    (start end_ : option datetime) : result (list Activity) :=
  github_token <- get_github_token (environ w) ;;
  github_source' <-
    returned (GitHubActivitySource_init (environ w) (net w) (clock w)
                (str_of_datetime w) (str_of_float w) github_token organization) ;;
  tracker' <-
    returned (add_source ActivityTracker.__init__
                (github_source (fromisoformat w) (isoformat w) github_source')) ;;
  returned (get_all_activities (str_of_datetime w) tracker' username start end_).

(** What the command prints for one activity in the [pretty] format. *)
Definition pretty_lines (w : world) (activity : Activity) : list string :=
  ["[bold blue]" ++ strftime w (timestamp activity) ++ "[/bold blue]";
   "[bold]" ++ source activity ++ "[/bold]: " ++ message activity;
   ""].

(** * The first command ([hello.py]) *)

Module Hello.

(** What the command depends on: the environment, [requests.get] (the URL
    of a later page is whatever the previous page gave), the console, the
    clock and the date functions of the standard library. *)
Record world : Type := mk_world {
  environ : environment;
  requests_get : value -> list (string * string) -> result response;
  console_print : string -> result unit;
  strptime : string -> result datetime;
  isoformat : datetime -> string;
  now : datetime
}.

Definition fetch_github_data (w : world) (url : value) (headers : list (string * string))
  : result value :=
  response <- requests_get w url headers ;;
  _ <- raise_for_status response ;;
  json response.

(** [sub in s] for two strings. *)
Fixpoint str_contains (sub s : string) : bool :=
  prefix sub s
  || match s with
     | EmptyString => false
     | String _ s' => str_contains sub s'
     end.

(** [k in v] for a string [k]: a key of a dict, an element of a list, a
    substring of a string. *)
Definition py_contains (v : value) (k : string) : result bool :=
  match v with
  | VDict d =>
      Ok (match dict_lookup k d with Some _ => true | None => false end)
  | VList l => Ok (existsb (fun x => py_eq_str x k) l)
  | VStr s => Ok (str_contains k s)
  | _ => Raise TypeError
  end.

(** The loop over the pages; [None] when the pages outlast [fuel]. *)
Fixpoint fetch_pages (w : world) (headers : list (string * string)) (fuel : nat)
    (url : value) (repos : list value) : option (result (list value)) :=
  match fuel with
  | O => None
  | S fuel' =>
      if py_truth url then
        match fetch_github_data w url headers with
        | Raise e => Some (Raise e)
        | Ok response =>
            match py_iter response with
            | Raise e => Some (Raise e)
            | Ok items =>
                let repos' := (repos ++ items)%list in
                match (links <- py_get response "links" (VDict []) ;;
                       py_contains links "next") with
                | Raise e => Some (Raise e)
                | Ok false => Some (Ok repos')
                | Ok true =>
                    match (links <- py_getitem response "links" ;;
                           next <- py_getitem links "next" ;;
                           py_getitem next "url") with
                    | Raise e => Some (Raise e)
                    | Ok url' => fetch_pages w headers fuel' url' repos'
                    end
                end
            end
        end
      else Some (Ok repos)
  end.

(** [console.print(s)]. *)
Definition print_line (w : world) (s : string) : IO unit :=
  match console_print w s with
  | Ok _ => ([s], ret tt)
  | Raise e => ([], raise e)
  end.

(** The loop over the repositories: the first one owned by [username] is
    printed. *)
Fixpoint show_first_owned (w : world) (username : string) (repos : list value)
  : IO unit :=
  match repos with
  | [] => io_lift (ret tt)
  | repo :: rest =>
      owned <<- io_lift (lift (owner <- py_getitem repo "owner" ;;
                               login <- py_getitem owner "login" ;;
                               Ok (py_eq_str login username))) ;;
      if owned then
        name <<- io_lift (lift (py_getitem repo "name")) ;;
        print_line w ("[bold]" ++ py_str name ++ "[/bold]")
      else show_first_owned w username rest
  end.

Definition week : Z := 7 * 86400 * 1000000.

(** The two assignments to the date range; nothing reads it afterwards.
    The clock is read as one instant. *)
Definition date_range (w : world) (start_date end_date : option string)
  : result (option string * option string) :=
  range <-
    (match if_given start_date with
     | Some s =>
         parsed <- strptime w s ;;
         Ok (Some (isoformat w parsed ++ "Z"), end_date)
     | None => Ok (start_date, Some (isoformat w (now w) ++ "Z"))
     end) ;;
  match if_given (snd range) with
  | Some _ => Ok range
  | None =>
      week_ago <- datetime_minus (now w) week ;;
      Ok (fst range, Some (isoformat w week_ago ++ "Z"))
  end.

(** [track_activity] of [hello.py]; [None] when the pages outlast [fuel]. *)
Definition track_activity (w : world) (fuel : nat) (username organization : string)
    (start_date end_date : option string) (output_format : string)
  : option (IO unit) :=
  match get_github_token (environ w) with
  | Raise e => Some (io_lift (raise e))
  | Ok token0 =>
      let headers :=
        [("Authorization", "token " ++ token0);
         ("Accept", "application/vnd.github.v3+json")] in
      match date_range w start_date end_date with
      | Raise e => Some (io_lift (raise e))
      | Ok _ =>
          let url :=
            VStr ("https://api.github.com/orgs/" ++ organization ++ "/repos?per_page=100") in
          match fetch_pages w headers fuel url [] with
          | None => None
          | Some (Raise e) => Some (io_lift (raise e))
          | Some (Ok repos) => Some (show_first_owned w username repos)
          end
      end
  end.

End Hello.

(** A world in which GitHub answers every request with the list of two
    repositories of [octocat]; its clock shows the noon of 2024-02-20, as a
    naive [datetime]. *)
Definition hello_world : Hello.world :=
  Hello.mk_world
    (fun key => if String.eqb key "GITHUB_TOKEN" then Some "ghp_token" else None)
    (fun _ _ =>
       Ok (mk_response 200 []
             (Ok (VList [VDict [("name", VStr "hello");
                                ("owner", VDict [("login", VStr "octocat")])];
                         VDict [("name", VStr "world");
                                ("owner", VDict [("login", VStr "octocat")])]]))))
    (fun _ => Ok tt) (fun _ => Raise ValueError) show_datetime
    (mk_datetime 1708430400000000 None).

(** [v] is a string. *)
Definition is_str (v : value) : Prop := exists s : string, v = VStr s.

(** * Facts about the monads *)

Section MonadFacts.

Context {A B : Type}.

Lemma bind_Ok_inv (c : result A) (k : A -> result B) (b : B) :
  bind c k = Ok b -> exists a, c = Ok a /\ k a = Ok b.
Proof.
  destruct c as [a | e]; simpl; intros H; [eauto | discriminate].
Qed.

Lemma returned_ret (a : A) : returned (ret a) = Ok a.
Proof. reflexivity. Qed.

Lemma returned_raise (e : exn) : returned (@raise A e) = Raise e.
Proof. reflexivity. Qed.

Lemma returned_lift (c : result A) : returned (lift c) = c.
Proof. reflexivity. Qed.

Lemma returned_bindM (c : M A) (k : A -> M B) :
  returned (bindM c k) = bind (returned c) (fun a => returned (k a)).
Proof.
  destruct c as [l1 [a | e]]; simpl; [| reflexivity].
  unfold bindM. destruct (k a) as [l2 r]. reflexivity.
Qed.

Lemma returned_try_except (body : M A) (cls : exn -> bool) (handler : exn -> M A) :
  returned (try_except body cls handler) =
  match returned body with
  | Ok a => Ok a
  | Raise e => if cls e then returned (handler e) else Raise e
  end.
Proof.
  destruct body as [l1 [a | e]]; simpl; [reflexivity |].
  unfold try_except. destruct (cls e); [| reflexivity].
  destruct (handler e) as [l2 r]. reflexivity.
Qed.

End MonadFacts.

Lemma returned_log_then {B : Type} (lv : level) (m : string) (k : unit -> M B) :
  returned (bindM (log lv m) k) = returned (k tt).
Proof. rewrite returned_bindM. reflexivity. Qed.

Lemma returned_log_exc_then {B : Type} (lv : level) (m : string) (e : exn)
    (k : unit -> M B) :
  returned (bindM (log_exc lv m e) k) = returned (k tt).
Proof. rewrite returned_bindM. reflexivity. Qed.

Create Rewrite HintDb returned.

#[local] Hint Rewrite @returned_log_then @returned_log_exc_then @returned_bindM
  @returned_try_except @returned_lift @returned_ret @returned_raise : returned.

(** * The event normalizer never raises *)

(** Splits the result of every step of a [try] block. *)
Ltac split_steps H :=
  repeat lazymatch type of H with
         | context [match ?c with _ => _ end] =>
             destruct c eqn:?; try discriminate H
         end.

(** Where the extraction succeeds, the details name the repository and its
    URL, whatever the event type. *)
Lemma simplify_try_has_repository (event_type event : value) (d : dict) :
  simplify_try event_type event = Ok d ->
  exists (repo : value) (repo_url : string),
    dict_lookup "repository" d = Some repo /\
    dict_lookup "repository_url" d = Some (VStr repo_url).
Proof.
  intros H. unfold simplify_try, bind in H.
  split_steps H; inversion H; subst; clear H; eexists; eexists; split; reflexivity.
Qed.

(** An event without any field is simplified from the defaults alone. *)
Lemma simplify_try_of_defaults (event_type : value) :
  exists d : dict, simplify_try event_type (VDict []) = Ok d.
Proof.
  unfold simplify_try. cbn [py_get bind dict_get dict_lookup].
  repeat match goal with
         | |- context [if ?c then _ else _] => destruct c
         end; eexists; reflexivity.
Qed.

Lemma simplify_event_details_Ok (event_type event : value) (d : dict) :
  simplify_try event_type event = Ok d ->
  _simplify_event_details event_type event = ([], Ok d).
Proof.
  intros H. unfold _simplify_event_details, lift, try_except. rewrite H. reflexivity.
Qed.

Lemma simplify_event_details_Raise (event_type event : value) (e : exn) :
  simplify_try event_type event = Raise e ->
  _simplify_event_details event_type event =
  ([simplify_warning event_type e], Ok fallback_details).
Proof.
  intros H. unfold _simplify_event_details, lift, try_except. rewrite H. reflexivity.
Qed.

(** C1. For every event type and every raw event, [_simplify_event_details]
    returns a mapping and raises nothing; whenever the extraction raises an
    exception, what it returns is the fallback mapping, exactly, and the
    failure is logged as a warning. *)
Theorem simplify_event_details_never_raises (event_type event : value) :
  (exists d : dict,
      returned (_simplify_event_details event_type event) = Ok d) /\
  (forall e : exn,
      simplify_try event_type event = Raise e ->
      _simplify_event_details event_type event =
      ([simplify_warning event_type e],
       Ok [("error", VStr "Failed to process event details")])).
Proof.
  split.
  - destruct (simplify_try event_type event) as [d | e] eqn:E.
    + exists d. rewrite (simplify_event_details_Ok _ _ _ E). reflexivity.
    + exists fallback_details.
      rewrite (simplify_event_details_Raise _ _ _ E). reflexivity.
  - intros e E. apply simplify_event_details_Raise. exact E.
Qed.

(** An event whose payload is [null]: the extraction raises and the fallback
    comes back. *)
Lemma simplify_event_details_never_raises_witness :
  simplify_try (VStr "WatchEvent") (VDict [("payload", VNone)]) = Raise AttributeError /\
  _simplify_event_details (VStr "WatchEvent") (VDict [("payload", VNone)]) =
  ([simplify_warning (VStr "WatchEvent") AttributeError],
   Ok [("error", VStr "Failed to process event details")]).
Proof.
  split.
  - reflexivity.
  - apply (proj2 (simplify_event_details_never_raises
                    (VStr "WatchEvent") (VDict [("payload", VNone)]))).
    reflexivity.
Defined.

(** * The message of an event *)

Lemma get_human_readable_message_Ok (event_type : value) (details : dict) (m : string) :
  describe_try event_type details = Ok m ->
  _get_human_readable_message event_type details = ([], Ok m).
Proof.
  intros H. unfold _get_human_readable_message, lift, try_except.
  rewrite H. reflexivity.
Qed.

Lemma get_human_readable_message_Raise (event_type : value) (details : dict) (e : exn) :
  describe_try event_type details = Raise e ->
  _get_human_readable_message event_type details =
  ([describe_warning event_type e], Ok ("Performed " ++ py_str event_type)).
Proof.
  intros H. unfold _get_human_readable_message, lift, try_except.
  rewrite H. reflexivity.
Qed.

Lemma append_nonempty_r (s1 s2 : string) : s2 <> "" -> s1 ++ s2 <> "".
Proof.
  destruct s1; simpl; [tauto | discriminate].
Qed.

Lemma describe_try_nonempty (event_type : value) (details : dict) (m : string) :
  describe_try event_type details = Ok m -> m <> "".
Proof.
  intros H. unfold describe_try, bind in H.
  split_steps H; inversion H; subst; clear H;
    first [ simpl; discriminate | apply append_nonempty_r; simpl; discriminate ].
Qed.

Lemma describe_try_missing_key (event_type : value) (details : dict) (k : string) :
  In k (required_keys event_type) ->
  dict_lookup k details = None ->
  exists e, describe_try event_type details = Raise e.
Proof.
  unfold required_keys, describe_try. intros Hin Hk.
  assert (Hk' : dict_getitem details k = Raise KeyError)
    by (unfold dict_getitem, py_getitem; rewrite Hk; reflexivity).
  repeat match type of Hin with
         | context [if ?c then _ else _] => destruct c
         end;
    simpl in Hin; intuition subst;
    rewrite ?Hk'; unfold bind;
    repeat match goal with
           | |- context [match ?c with _ => _ end] => destruct c eqn:?
           end;
    solve [ eexists; reflexivity | congruence ].
Qed.

(** C4. For every event type and every detail map, the fallback of
    [_simplify_event_details] among them, [_get_human_readable_message]
    returns a non-empty string and raises nothing; when a key it reads by
    subscript is missing from the map, the string is
    ["Performed {event_type}"]. *)
Theorem get_human_readable_message_total (event_type : value) (details : dict) :
  (exists m : string,
      returned (_get_human_readable_message event_type details) = Ok m /\ m <> "") /\
  (forall k : string,
      In k (required_keys event_type) ->
      dict_lookup k details = None ->
      returned (_get_human_readable_message event_type details) =
      Ok ("Performed " ++ py_str event_type)).
Proof.
  split.
  - destruct (describe_try event_type details) as [m | e] eqn:E.
    + exists m. rewrite (get_human_readable_message_Ok _ _ _ E).
      split; [reflexivity | exact (describe_try_nonempty _ _ _ E)].
    + exists ("Performed " ++ py_str event_type).
      rewrite (get_human_readable_message_Raise _ _ _ E).
      split; [reflexivity | discriminate].
  - intros k Hin Hk.
    destruct (describe_try_missing_key _ _ _ Hin Hk) as [e E].
    rewrite (get_human_readable_message_Raise _ _ _ E). reflexivity.
Qed.

(** The fallback detail map has no [repository]: a watch event described
    from it is ["Performed WatchEvent"]. *)
Lemma get_human_readable_message_total_witness :
  returned (_get_human_readable_message (VStr "WatchEvent") fallback_details) =
  Ok "Performed WatchEvent".
Proof.
  apply (proj2 (get_human_readable_message_total (VStr "WatchEvent") fallback_details)
           "repository").
  - simpl. left. reflexivity.
  - reflexivity.
Defined.

(** * The details of a push *)

Lemma split_first (s : string) : nth_str (str_split LF s) 0 = Ok (line1 s).
Proof.
  unfold nth_str. induction s as [| c s' IH]; simpl; [reflexivity |].
  destruct (Ascii.eqb c LF); [reflexivity |].
  destruct (str_split LF s') as [| w ws]; simpl in *; [discriminate |].
  congruence.
Qed.

Lemma first_line_commit (commit : value) (message : string) :
  commit_message commit message -> first_line commit = Ok (line1 message).
Proof.
  intros [c [-> Hm]]. unfold first_line. simpl. rewrite Hm. simpl.
  apply split_first.
Qed.

Lemma mapM_first_line (shown : list value) (messages : list string) :
  Forall2 commit_message shown messages ->
  mapM first_line shown = Ok (map line1 messages).
Proof.
  induction 1 as [| commit message shown messages Hc _ IH]; simpl; [reflexivity |].
  rewrite (first_line_commit _ _ Hc), IH. reflexivity.
Qed.

Lemma simplify_try_push (event : value) (repo payload : dict) (ref : string)
    (commits : list value) (messages : list string) :
  push_event event repo payload ref commits messages ->
  simplify_try (VStr "PushEvent") event =
  let repo_name := dict_get repo "name" (VStr "unknown") in
  let repo_url := "https://github.com/" ++ py_str repo_name in
  Ok [("repository", repo_name);
      ("repository_url", VStr repo_url);
      ("ref", VStr ref);
      ("commit_count", VInt (Z.of_nat (List.length commits)));
      ("commit_messages", VList (map VStr (map line1 messages)));
      ("compare_url",
       VStr (repo_url ++ "/compare/" ++ py_str (dict_get payload "before" (VStr ""))
             ++ "..." ++ py_str (dict_get payload "head" (VStr ""))))].
Proof.
  intros [Hrepo Hpayload Href Hcommits Hmsgs].
  unfold simplify_try. rewrite Hrepo, Hpayload.
  cbn [bind py_get py_eq_str]. change (String.eqb "PushEvent" "PushEvent") with true.
  cbv iota. rewrite Href, Hcommits.
  cbn [bind py_replace py_len py_slice_to py_iter].
  rewrite (mapM_first_line _ _ Hmsgs). reflexivity.
Qed.

(** C2 (amended). For a push event, the simplified details hold the ref as
    the payload gives it, with no [refs/heads/] prefix stripped, the number
    of commits, the first line of the message of each of the first three
    commits at most, and a compare URL built from the [before] and [head]
    SHAs. *)
Theorem push_details_keep_ref (event : value) (repo payload : dict) (ref : string)
    (commits : list value) (messages : list string) :
  push_event event repo payload ref commits messages ->
  exists d : dict,
    returned (_simplify_event_details (VStr "PushEvent") event) = Ok d /\
    dict_lookup "ref" d = Some (VStr ref) /\
    dict_lookup "commit_count" d = Some (VInt (Z.of_nat (List.length commits))) /\
    dict_lookup "commit_messages" d = Some (VList (map VStr (map line1 messages))) /\
    List.length messages = Nat.min 3 (List.length commits) /\
    dict_lookup "compare_url" d =
    Some (VStr ("https://github.com/" ++ py_str (dict_get repo "name" (VStr "unknown"))
                ++ "/compare/" ++ py_str (dict_get payload "before" (VStr ""))
                ++ "..." ++ py_str (dict_get payload "head" (VStr "")))).
Proof.
  intros Hpush. pose proof (simplify_try_push _ _ _ _ _ _ Hpush) as E.
  cbv zeta in E. eexists.
  rewrite (simplify_event_details_Ok _ _ _ E).
  do 4 (split; [reflexivity |]).
  split.
  - rewrite <- (Forall2_length (push_messages _ _ _ _ _ _ Hpush)).
    apply length_firstn.
  - reflexivity.
Qed.

Lemma push_details_keep_ref_witness :
  exists d : dict,
    returned (_simplify_event_details (VStr "PushEvent") push_to_main) = Ok d /\
    dict_lookup "ref" d = Some (VStr "refs/heads/main") /\
    dict_lookup "commit_count" d = Some (VInt 4) /\
    dict_lookup "commit_messages" d = Some (VList [VStr "Fix"; VStr "Add test"; VStr "Bump"]) /\
    List.length ["Fix"; "Add test"; "Bump"] = 3%nat /\
    dict_lookup "compare_url" d =
    Some (VStr "https://github.com/octo/hello/compare/1f2e3d...4c5b6a").
Proof.
  apply (push_details_keep_ref push_to_main
           [("name", VStr "octo/hello")]
           [("ref", VStr "refs/heads/main");
            ("before", VStr "1f2e3d");
            ("head", VStr "4c5b6a");
            ("commits",
             VList [commit_of (String "F" (String "i" (String "x" (String LF "body"))));
                    commit_of "Add test";
                    commit_of "Bump";
                    commit_of "Tidy"])]
           "refs/heads/main"
           [commit_of (String "F" (String "i" (String "x" (String LF "body"))));
            commit_of "Add test"; commit_of "Bump"; commit_of "Tidy"]
           [String "F" (String "i" (String "x" (String LF "body"))); "Add test"; "Bump"]).
  constructor; try reflexivity.
  repeat constructor; eexists; split; reflexivity.
Defined.

(** C2 as stated fails: the details of a push to [refs/heads/main] hold the
    ref with its prefix, and the stripped branch name [main] under no key. *)
Lemma push_details_branch_not_stripped :
  exists d : dict,
    returned (_simplify_event_details (VStr "PushEvent") push_to_main) = Ok d /\
    dict_lookup "ref" d = Some (VStr "refs/heads/main") /\
    str_replace "refs/heads/" "" "refs/heads/main" = "main" /\
    ~ In (VStr "main") (map snd d).
Proof.
  eexists. split; [reflexivity |]. split; [reflexivity |]. split; [reflexivity |].
  simpl. intros H.
  repeat (destruct H as [H | H]; [discriminate H |]). exact H.
Qed.

(** * The message of a push *)

(** The message of a push spells its count and puts the plural [s] after
    [commit] exactly when the count is greater than one. *)
Lemma push_message_plural (details : dict) (n : Z) (m : string) :
  dict_lookup "commit_count" details = Some (VInt n) ->
  describe_try (VStr "PushEvent") details = Ok m ->
  exists rest : string,
    m = "Pushed " ++ str_of_Z n ++ " commit" ++ (if n >? 1 then "s" else "")
        ++ " to " ++ rest.
Proof.
  intros Hn H. unfold describe_try in H. cbn [py_eq_str] in H.
  change (String.eqb "PushEvent" "PushEvent") with true in H. cbv iota in H.
  unfold dict_getitem at 1 in H. unfold py_getitem in H. rewrite Hn in H.
  cbn [bind] in H.
  repeat (apply bind_Ok_inv in H; destruct H as [? [? H]]).
  inversion H; subst; clear H.
  match goal with Hgt : py_gt (VInt n) 1 = Ok _ |- _ => inversion Hgt; subst end.
  eexists. reflexivity.
Qed.

(** C7. A push of no commit is described with the singular: the message is
    ["Pushed 0 commit to ..."], although its count is not 1. *)
Theorem push_message_zero_commits :
  returned (details <~ _simplify_event_details (VStr "PushEvent") push_without_commits ;;
            _get_human_readable_message (VStr "PushEvent") details) =
  Ok "Pushed 0 commit to octo/hello/main".
Proof. reflexivity. Qed.

(** * The fragment of an issue comment *)

Lemma str_take_drop (n : nat) (s : string) : s = str_take n s ++ str_drop n s.
Proof.
  revert s. induction n as [| n IH]; intros [| c s]; simpl; try reflexivity.
  rewrite <- IH. reflexivity.
Qed.

Lemma str_take_length (n : nat) (s : string) :
  (n <= String.length s)%nat -> String.length (str_take n s) = n.
Proof.
  revert s. induction n as [| n IH]; intros [| c s]; simpl; intros H;
    try reflexivity; try lia.
  rewrite IH; [reflexivity | lia].
Qed.


Lemma str_length_append (s1 s2 : string) :
  String.length (s1 ++ s2) = (String.length s1 + String.length s2)%nat.
Proof.
  induction s1 as [| c s1 IH]; simpl; [reflexivity | rewrite IH; reflexivity].
Qed.

(** The ellipsis goes after the first 100 characters of every body. *)
Lemma comment_fragment_of_body (event : value) (body : string) :
  issue_comment_event event (VStr body) ->
  exists d : dict,
    returned (_simplify_event_details (VStr "IssueCommentEvent") event) = Ok d /\
    dict_lookup "comment_fragment" d = Some (VStr (str_take 100 body ++ "...")).
Proof.
  intros (repo & payload & issue & comment & Hrepo & Hpayload & Hissue & Hcomment & Hbody).
  assert (E : exists d, simplify_try (VStr "IssueCommentEvent") event = Ok d /\
                        dict_lookup "comment_fragment" d
                        = Some (VStr (str_take 100 body ++ "..."))).
  { unfold simplify_try. rewrite Hrepo, Hpayload.
    cbn [bind py_get py_eq_str].
    change (String.eqb "IssueCommentEvent" "PushEvent") with false.
    change (String.eqb "IssueCommentEvent" "PullRequestEvent") with false.
    change (String.eqb "IssueCommentEvent" "IssuesEvent") with false.
    change (String.eqb "IssueCommentEvent" "IssueCommentEvent") with true.
    cbv iota. rewrite Hissue, Hcomment. cbn [bind py_get]. rewrite Hbody.
    cbn [bind py_slice_to py_add_str].
    eexists. split; reflexivity. }
  destruct E as [d [E Hd]]. exists d.
  rewrite (simplify_event_details_Ok _ _ _ E). split; [reflexivity | exact Hd].
Qed.

(** C8. For an issue comment whose body has 150 characters, the
    [comment_fragment] is the first 100 characters of the body followed by
    the ellipsis ["..."]. *)
Theorem comment_fragment_truncated (event : value) (body : string) :
  issue_comment_event event (VStr body) ->
  String.length body = 150%nat ->
  exists (d : dict) (first100 rest : string),
    returned (_simplify_event_details (VStr "IssueCommentEvent") event) = Ok d /\
    body = first100 ++ rest /\
    String.length first100 = 100%nat /\
    dict_lookup "comment_fragment" d = Some (VStr (first100 ++ "...")).
Proof.
  intros Hevent Hlen.
  destruct (comment_fragment_of_body _ _ Hevent) as [d [Hd Hfragment]].
  exists d, (str_take 100 body), (str_drop 100 body).
  split; [exact Hd |]. split; [apply str_take_drop |].
  split; [apply str_take_length; lia | exact Hfragment].
Qed.

Lemma comment_fragment_truncated_witness :
  exists (d : dict) (first100 rest : string),
    returned (_simplify_event_details (VStr "IssueCommentEvent") long_comment) = Ok d /\
    long_body = first100 ++ rest /\
    String.length first100 = 100%nat /\
    dict_lookup "comment_fragment" d = Some (VStr (first100 ++ "...")).
Proof.
  apply (comment_fragment_truncated long_comment long_body).
  - exists [("name", VStr "octo/hello")],
      [("action", VStr "created");
       ("issue", VDict [("number", VInt 7)]);
       ("comment", VDict [("body", VStr long_body)])],
      [("number", VInt 7)], [("body", VStr long_body)].
    repeat split.
  - reflexivity.
Defined.



(** * Validating the credentials *)

(** A request that fails in the session gives [False]. *)
Lemma validate_credentials_request_failure (self : GitHubActivitySource.t) (e : exn) :
  session_get self "https://api.github.com/user" (request_headers self) = Raise e ->
  is_RequestException e = true ->
  returned (GitHubActivitySource.validate_credentials self) = Ok false.
Proof.
  intros Hget He. unfold GitHubActivitySource.validate_credentials, _fetch_github_data.
  autorewrite with returned. rewrite Hget. simpl. rewrite He. simpl.
  rewrite He. reflexivity.
Qed.

(** A response outside the rate-limit branch: an error status gives
    [False], any other status [True] once the body is read. *)
Lemma validate_credentials_response (self : GitHubActivitySource.t) (r : response) :
  session_get self "https://api.github.com/user" (request_headers self) = Ok r ->
  rate_limit_exceeded r = false ->
  returned (GitHubActivitySource.validate_credentials self) =
  if (400 <=? status_code r) && (status_code r <? 600) then Ok false
  else match json r with
       | Ok _ => Ok true
       | Raise e => if is_RequestException e then Ok false else Raise e
       end.
Proof.
  intros Hget Hrate. unfold GitHubActivitySource.validate_credentials, _fetch_github_data.
  autorewrite with returned. rewrite Hget. simpl.
  unfold rate_limit_exceeded in Hrate. rewrite Hrate.
  autorewrite with returned. simpl. unfold raise_for_status.
  destruct ((400 <=? status_code r) && (status_code r <? 600)); simpl;
    [reflexivity |].
  destruct (json r) as [v | e]; simpl; [reflexivity |].
  destruct (is_RequestException e) eqn:He; simpl; rewrite ?He; reflexivity.
Qed.

(** C6. On a rate-limited response without reset header the default
    ["unknown"] goes to [int], and the [ValueError] leaves
    [validate_credentials]: it is no [requests.RequestException]. *)
Theorem validate_credentials_rate_limited :
  is_RequestException ValueError = false /\
  returned (GitHubActivitySource.validate_credentials rate_limited_source) = Raise ValueError.
Proof. split; reflexivity. Qed.

(** * The date range of [get_activities] *)

Section DateRange.

Variable fromisoformat : string -> result datetime.
Variable isoformat : datetime -> string.

Lemma get_activities_returned (self : GitHubActivitySource.t) (username : string)
    (start_date end_date : option datetime) :
  returned (GitHubActivitySource.get_activities fromisoformat isoformat self username
              start_date end_date) =
  returned (fetch_and_process fromisoformat self username).
Proof.
  unfold GitHubActivitySource.get_activities.
  rewrite returned_log_then.
  destruct (organization_filter self) as [org |].
  - rewrite !returned_log_then. reflexivity.
  - rewrite returned_bindM, returned_ret. cbn [bind].
    rewrite returned_log_then. reflexivity.
Qed.

End DateRange.

(** [test_github_source_get_activities]: one activity, of source [github]
    and type [PushEvent]. *)
Example test_github_source_get_activities :
  exists activity : Activity,
    returned (GitHubActivitySource.get_activities (fun _ => Ok noon_2024_02_20) show_datetime
                mock_github_source "testuser" None None) = Ok [activity] /\
    source activity = "github" /\
    type activity = VStr "PushEvent" /\
    message activity = "Pushed 1 commit to unknown/unknown: test commit".
Proof. eexists. repeat split. Qed.

(** The same event comes back for a date range that begins a year after
    it. *)
Example get_activities_outside_range :
  exists activity : Activity,
    returned (GitHubActivitySource.get_activities (fun _ => Ok noon_2024_02_20) show_datetime
                mock_github_source "testuser"
                (Some (mk_datetime (1708430400000000 + 31536000000000) (Some 0)))
                (Some (mk_datetime (1708430400000000 + 63072000000000) (Some 0))))
    = Ok [activity] /\
    timestamp activity = noon_2024_02_20.
Proof. eexists. repeat split. Qed.

(** C9. With the session fixed, what [get_activities] returns is the same
    for every start and end date: the dates go to the log and nowhere
    else. *)
Theorem get_activities_ignores_dates
    (fromisoformat : string -> result datetime) (isoformat : datetime -> string)
    (self : GitHubActivitySource.t) (username : string)
    (start_date end_date start_date' end_date' : option datetime) :
  returned (GitHubActivitySource.get_activities fromisoformat isoformat self username
              start_date end_date) =
  returned (GitHubActivitySource.get_activities fromisoformat isoformat self username
              start_date' end_date').
Proof.
  rewrite !get_activities_returned. reflexivity.
Qed.

(** * Sorting by timestamp, latest first *)

Lemma datetime_lt_same (d1 d2 : datetime) :
  aware d1 = aware d2 -> datetime_lt d1 d2 = Ok (moment d1 <? moment d2).
Proof.
  unfold aware, datetime_lt, moment.
  destruct (utcoffset d1), (utcoffset d2); intros H;
    first [discriminate | reflexivity].
Qed.

Lemma datetime_lt_mixed (d1 d2 : datetime) :
  aware d1 = negb (aware d2) -> datetime_lt d1 d2 = Raise TypeError.
Proof.
  unfold aware, datetime_lt.
  destruct (utcoffset d1), (utcoffset d2); intros H;
    first [discriminate | reflexivity].
Qed.


Section SortedFacts.

Context {A : Type}.
Variable key : A -> Z.

Lemma insert_descending_perm (a : A) (l : list A) :
  Permutation (insert_descending key a l) (a :: l).
Proof.
  induction l as [| b l IH]; simpl; [reflexivity |].
  destruct (key a <? key b); [| reflexivity].
  rewrite IH. apply perm_swap.
Qed.

Lemma sort_descending_perm (l : list A) : Permutation (sort_descending key l) l.
Proof.
  induction l as [| a l IH]; simpl; [reflexivity |].
  rewrite insert_descending_perm. apply perm_skip. exact IH.
Qed.

Lemma insert_descending_descending (a : A) (l : list A) :
  descending key l -> descending key (insert_descending key a l).
Proof.
  unfold descending. induction 1 as [| b l Hl IH Hb]; simpl.
  - constructor; constructor.
  - destruct (Z.ltb_spec (key a) (key b)) as [Hlt | Hge].
    + constructor; [exact IH |].
      apply (Permutation_Forall (Permutation_sym (insert_descending_perm a l))).
      constructor; [lia | exact Hb].
    + constructor; [constructor; assumption |].
      constructor; [lia |].
      apply (Forall_impl _ (P := fun c => key c <= key b)); [intros; lia | exact Hb].
Qed.

Lemma sort_descending_descending (l : list A) :
  descending key (sort_descending key l).
Proof.
  induction l as [| a l IH]; simpl.
  - constructor.
  - apply insert_descending_descending. exact IH.
Qed.

Lemma insert_descending_keyed (k : Z) (a : A) (l : list A) :
  keyed key k (insert_descending key a l) = keyed key k (a :: l).
Proof.
  unfold keyed. induction l as [| b l IH]; simpl; [reflexivity |].
  destruct (Z.ltb_spec (key a) (key b)) as [Hlt | Hge]; [| reflexivity].
  simpl. rewrite IH. simpl.
  destruct (Z.eqb_spec (key a) k), (Z.eqb_spec (key b) k); try reflexivity. lia.
Qed.

(** The sort is stable: elements of equal key keep their order. *)
Lemma sort_descending_stable (k : Z) (l : list A) :
  keyed key k (sort_descending key l) = keyed key k l.
Proof.
  induction l as [| a l IH]; simpl; [reflexivity |].
  rewrite insert_descending_keyed. unfold keyed in *. simpl. rewrite IH. reflexivity.
Qed.

Lemma keyed_tail (x : A) (l l' : list A) :
  (forall k, keyed key k (x :: l) = keyed key k (x :: l')) ->
  forall k, keyed key k l = keyed key k l'.
Proof.
  intros H k. specialize (H k). unfold keyed in *. simpl in H.
  destruct (key x =? k); [injection H; trivial | exact H].
Qed.

(** The three properties leave one list only: whatever stable sort Python
    runs, its result is this one. *)
Lemma stable_descending_unique (out out' : list A) :
  Permutation out out' ->
  descending key out ->
  descending key out' ->
  (forall k, keyed key k out = keyed key k out') ->
  out = out'.
Proof.
  revert out'. induction out as [| x xs IH]; intros out' Hperm Hd Hd' Hk.
  - apply Permutation_nil in Hperm. congruence.
  - destruct out' as [| y ys].
    + apply Permutation_sym, Permutation_nil in Hperm. discriminate.
    + inversion Hd as [| ? ? Hxs Hx]; subst.
      inversion Hd' as [| ? ? Hys Hy]; subst.
      assert (Hxy : key x <= key y).
      { assert (Hin : In x (y :: ys))
          by (apply (Permutation_in _ Hperm); left; reflexivity).
        destruct Hin as [-> | Hin]; [lia |].
        rewrite Forall_forall in Hy. exact (Hy _ Hin). }
      assert (Hyx : key y <= key x).
      { assert (Hin : In y (x :: xs))
          by (apply (Permutation_in _ (Permutation_sym Hperm)); left; reflexivity).
        destruct Hin as [-> | Hin]; [lia |].
        rewrite Forall_forall in Hx. exact (Hx _ Hin). }
      assert (Heq : x = y).
      { specialize (Hk (key x)). unfold keyed in Hk. simpl in Hk.
        rewrite Z.eqb_refl in Hk.
        replace (key y =? key x) with true in Hk by (symmetry; apply Z.eqb_eq; lia).
        congruence. }
      subst y. f_equal.
      apply IH; [exact (Permutation_cons_inv Hperm) | exact Hxs | exact Hys |].
      exact (keyed_tail _ _ _ Hk).
Qed.

Lemma sort_descending_unique (l out : list A) :
  Permutation out l ->
  descending key out ->
  (forall k, keyed key k out = keyed key k l) ->
  out = sort_descending key l.
Proof.
  intros Hperm Hd Hk. apply stable_descending_unique.
  - rewrite sort_descending_perm. exact Hperm.
  - exact Hd.
  - apply sort_descending_descending.
  - intros k. rewrite sort_descending_stable. apply Hk.
Qed.

End SortedFacts.

(** ** The sort of Python, whose comparisons may raise *)

Section SortedReverseFacts.

Context {A : Type}.
Variable key : A -> datetime.

Lemma insert_reverse_same_kind (a : A) (l : list A) :
  Forall (fun b => aware (key b) = aware (key a)) l ->
  insert_reverse key a l = Ok (insert_descending (sort_key key) a l).
Proof.
  induction 1 as [| b l Hb Hl IH]; cbn [insert_reverse insert_descending];
    [reflexivity |].
  rewrite (datetime_lt_same (key a) (key b)) by (symmetry; exact Hb).
  cbn [bind]. fold (sort_key key a) (sort_key key b).
  destruct (sort_key key a <? sort_key key b); [| reflexivity].
  rewrite IH. reflexivity.
Qed.

Lemma insert_reverse_other_kind (a b : A) (l : list A) :
  aware (key a) = negb (aware (key b)) ->
  insert_reverse key a (b :: l) = Raise TypeError.
Proof.
  intros H. cbn [insert_reverse]. rewrite (datetime_lt_mixed _ _ H). reflexivity.
Qed.

Lemma forallb_pointwise (f g : A -> bool) (l : list A) :
  (forall b, f b = g b) -> forallb f l = forallb g l.
Proof.
  intros H. induction l as [| b l IH]; cbn [forallb]; [reflexivity |].
  rewrite H, IH. reflexivity.
Qed.

Lemma comparable_cons (a : A) (l : list A) :
  comparable key (a :: l) =
  comparable key l && forallb (fun b => Bool.eqb (aware (key b)) (aware (key a))) l.
Proof.
  assert (Hsame : forallb (fun b => Bool.eqb (aware (key b)) (aware (key a))) l
                  = if aware (key a) then forallb (fun b => aware (key b)) l
                    else forallb (fun b => negb (aware (key b))) l).
  { destruct (aware (key a)); apply forallb_pointwise; intros b;
      destruct (aware (key b)); reflexivity. }
  rewrite Hsame. unfold comparable. cbn [forallb].
  destruct (aware (key a)); cbn [negb];
    destruct (forallb (fun b => aware (key b)) l),
             (forallb (fun b => negb (aware (key b))) l); reflexivity.
Qed.

(** [sorted] returns the stable descending order when the keys are all aware
    or all naive, and raises [TypeError] when both kinds occur. *)
Lemma sorted_reverse_outcome (l : list A) :
  sorted_reverse key l =
  if comparable key l then Ok (sort_descending (sort_key key) l) else Raise TypeError.
Proof.
  induction l as [| a l IH]; [reflexivity |].
  cbn [sorted_reverse sort_descending]. rewrite IH, comparable_cons.
  destruct (comparable key l) eqn:Hl; cbn [andb bind]; [| reflexivity].
  destruct (forallb (fun b => Bool.eqb (aware (key b)) (aware (key a))) l) eqn:Hsame.
  - apply insert_reverse_same_kind.
    apply (Permutation_Forall (Permutation_sym (sort_descending_perm (sort_key key) l))).
    rewrite Forall_forall. intros b Hb.
    rewrite forallb_forall in Hsame. apply eqb_prop, Hsame, Hb.
  - assert (Hother : Forall (fun b => aware (key a) = negb (aware (key b))) l).
    { rewrite Forall_forall. intros b Hb.
      unfold comparable in Hl. apply orb_true_iff in Hl.
      destruct (aware (key a)) eqn:Ha.
      - destruct Hl as [Hall | Hnone].
        + exfalso. rewrite <- not_true_iff_false in Hsame. apply Hsame.
          apply forallb_forall. intros c Hc.
          rewrite forallb_forall in Hall. rewrite (Hall c Hc). reflexivity.
        + rewrite forallb_forall in Hnone. specialize (Hnone b Hb).
          destruct (aware (key b)); [discriminate | reflexivity].
      - destruct Hl as [Hall | Hnone].
        + rewrite forallb_forall in Hall. rewrite (Hall b Hb). reflexivity.
        + exfalso. rewrite <- not_true_iff_false in Hsame. apply Hsame.
          apply forallb_forall. intros c Hc.
          rewrite forallb_forall in Hnone. specialize (Hnone c Hc).
          destruct (aware (key c)); [discriminate | reflexivity]. }
    destruct l as [| b l']; [discriminate |].
    apply (Permutation_Forall (Permutation_sym (sort_descending_perm (sort_key key) (b :: l'))))
      in Hother.
    destruct (sort_descending (sort_key key) (b :: l')) as [| c rest] eqn:Hsorted.
    + pose proof (sort_descending_perm (sort_key key) (b :: l')) as Hperm.
      rewrite Hsorted in Hperm. apply Permutation_nil in Hperm. discriminate.
    + apply insert_reverse_other_kind. inversion Hother; assumption.
Qed.


End SortedReverseFacts.

(** * Merging the sources *)

Section TrackerFacts.

Variable str_of_datetime : datetime -> string.
Variable username : string.
Variables start_date end_date : option datetime.

Lemma fetch_sources_returned (registered : list ActivitySource)
    (activities : list Activity) :
  returned (fetch_sources registered username start_date end_date activities) =
  Ok (activities ++ retrieved username start_date end_date registered)%list.
Proof.
  revert activities.
  induction registered as [| source rest IH]; intros activities;
    unfold retrieved; cbn [fetch_sources flat_map].
  - rewrite app_nil_r. reflexivity.
  - fold (retrieved username start_date end_date rest).
    rewrite returned_bindM, returned_try_except, returned_log_then, returned_bindM.
    unfold contribution.
    destruct (returned (get_activities source username start_date end_date))
      as [source_activities | e]; cbn [bind Exception].
    + rewrite returned_log_then, returned_ret. cbn [bind].
      rewrite IH, app_assoc. reflexivity.
    + rewrite returned_log_exc_then, returned_ret. cbn [bind].
      rewrite IH. reflexivity.
Qed.

(** The sort is outside every [try]: what it returns or raises is what
    [get_all_activities] returns or raises. *)
Lemma get_all_activities_returned (self : ActivityTracker.t) :
  returned (get_all_activities str_of_datetime self username start_date end_date) =
  sorted_reverse timestamp (retrieved username start_date end_date (sources self)).
Proof.
  unfold get_all_activities.
  rewrite !returned_log_then, returned_bindM, fetch_sources_returned.
  cbn [bind app]. rewrite returned_bindM, returned_lift.
  destruct (sorted_reverse timestamp _) as [sorted_activities | e]; cbn [bind];
    [| reflexivity].
  rewrite returned_log_then. reflexivity.
Qed.


End TrackerFacts.







(** * Further facts about the event normalizer *)

(** X1. Where the extraction succeeds, the details hold every key that the
    message of the event type reads by subscript. *)
Theorem simplified_details_have_required_keys (event_type event : value) (d : dict)
    (k : string) :
  simplify_try event_type event = Ok d ->
  In k (required_keys event_type) ->
  exists v : value, dict_lookup k d = Some v.
Proof.
  intros H Hin. unfold simplify_try, bind in H. unfold required_keys in Hin.
  split_steps H; inversion H; subst; clear H;
    repeat match goal with
           | E : py_eq_str _ _ = _ |- _ => rewrite E in Hin; clear E
           end;
    simpl in Hin; intuition subst; eexists; reflexivity.
Qed.

Lemma simplified_details_have_required_keys_witness :
  exists v : value,
    dict_lookup "commit_messages"
      [("repository", VStr "octo/hello");
       ("repository_url", VStr "https://github.com/octo/hello");
       ("ref", VStr "refs/heads/main");
       ("commit_count", VInt 0);
       ("commit_messages", VList []);
       ("compare_url", VStr "https://github.com/octo/hello/compare/1f2e3d...1f2e3d")]
    = Some v.
Proof.
  apply (simplified_details_have_required_keys (VStr "PushEvent") push_without_commits).
  - reflexivity.
  - simpl. tauto.
Defined.

Lemma describe_try_of_simplified (event_type event : value) (d : dict) :
  simplify_try event_type event = Ok d ->
  (capitalizes_action event_type = true ->
   exists action : string, dict_lookup "action" d = Some (VStr action)) ->
  exists m : string, describe_try event_type d = Ok m.
Proof.
  intros H Haction. unfold simplify_try, bind in H.
  unfold capitalizes_action in Haction. unfold describe_try.
  split_steps H; inversion H; subst; clear H;
    repeat match goal with
           | E : py_eq_str _ _ = _ |- _ => rewrite E in *; clear E
           end.
  all: try (destruct Haction as [action Haction]; [reflexivity |];
            simpl in Haction; injection Haction as ->).
  all: try solve [simpl; eexists; reflexivity].
  destruct a2; try discriminate. destruct a8; simpl; eexists; reflexivity.
Qed.

(** X2. Where the extraction succeeds, the message is built from the
    details without the fallback and without a warning, for every event
    type; for a pull request or an issue the action has to be a string. *)
Theorem message_of_simplified_details (event_type event : value) (d : dict) :
  simplify_try event_type event = Ok d ->
  (capitalizes_action event_type = true ->
   exists action : string, dict_lookup "action" d = Some (VStr action)) ->
  exists m : string,
    describe_try event_type d = Ok m /\
    simplify_then_describe event_type event = ([], Ok m).
Proof.
  intros H Haction.
  destruct (describe_try_of_simplified _ _ _ H Haction) as [m Hm].
  exists m. split; [exact Hm |].
  unfold simplify_then_describe.
  rewrite (simplify_event_details_Ok _ _ _ H). unfold bindM.
  rewrite (get_human_readable_message_Ok _ _ _ Hm). reflexivity.
Qed.

Lemma message_of_simplified_details_witness :
  exists m : string,
    describe_try (VStr "IssueCommentEvent")
      [("action", VStr "created");
       ("issue_number", VStr "unknown");
       ("repository", VStr "octo/hello");
       ("repository_url", VStr "https://github.com/octo/hello");
       ("comment_fragment", VStr "...");
       ("url", VNone);
       ("issue_url", VNone)] = Ok m /\
    simplify_then_describe (VStr "IssueCommentEvent") comment_without_body = ([], Ok m).
Proof.
  apply (message_of_simplified_details (VStr "IssueCommentEvent") comment_without_body).
  - reflexivity.
  - simpl. discriminate.
Defined.


Lemma py_eq_str_true (v : value) (s : string) : py_eq_str v s = true <-> v = VStr s.
Proof.
  destruct v; simpl; try (split; [discriminate | intros H; discriminate H]).
  rewrite String.eqb_eq. split; [intros -> | intros H; injection H]; trivial.
Qed.

Lemma py_eq_str_false (v : value) (s : string) : py_eq_str v s = false <-> v <> VStr s.
Proof.
  rewrite <- py_eq_str_true. destruct (py_eq_str v s); split; congruence.
Qed.

(** X3. The URL of a create event: the tree of the branch for a branch, the
    release tag for a tag, and the bare repository URL for every other ref
    type, the default of an absent one among them. *)
Theorem create_event_url (event : value) (repo payload : dict) :
  event_fields event repo payload ->
  let repo_url :=
    "https://github.com/" ++ py_str (dict_get repo "name" (VStr "unknown")) in
  let ref := dict_get payload "ref" (VStr "unknown") in
  let ref_type := dict_get payload "ref_type" (VStr "unknown") in
  exists (d : dict) (url : string),
    returned (_simplify_event_details (VStr "CreateEvent") event) = Ok d /\
    dict_lookup "url" d = Some (VStr url) /\
    (ref_type = VStr "branch" -> url = repo_url ++ "/tree/" ++ py_str ref) /\
    (ref_type = VStr "tag" -> url = repo_url ++ "/releases/tag/" ++ py_str ref) /\
    (ref_type <> VStr "branch" -> ref_type <> VStr "tag" -> url = repo_url).
Proof.
  intros [Hrepo Hpayload] repo_url ref ref_type.
  assert (E : simplify_try (VStr "CreateEvent") event =
              Ok [("ref_type", ref_type); ("ref", ref);
                  ("repository", dict_get repo "name" (VStr "unknown"));
                  ("repository_url", VStr repo_url);
                  ("url",
                   VStr (if py_eq_str ref_type "branch"
                         then repo_url ++ "/tree/" ++ py_str ref
                         else if py_eq_str ref_type "tag"
                              then repo_url ++ "/releases/tag/" ++ py_str ref
                              else repo_url))]).
  { unfold simplify_try. rewrite Hrepo, Hpayload. reflexivity. }
  eexists. eexists. rewrite (simplify_event_details_Ok _ _ _ E).
  split; [reflexivity |]. split; [reflexivity |].
  split; [| split].
  - intros H. rewrite H. reflexivity.
  - intros H. rewrite H. reflexivity.
  - intros Hb Ht. apply py_eq_str_false in Hb, Ht. rewrite Hb, Ht. reflexivity.
Qed.

Lemma create_event_url_witness :
  exists (d : dict) (url : string),
    returned (_simplify_event_details (VStr "CreateEvent") tag_created) = Ok d /\
    dict_lookup "url" d = Some (VStr url) /\
    (VStr "tag" = VStr "branch" -> url = "https://github.com/octo/hello/tree/v1.0") /\
    (VStr "tag" = VStr "tag" -> url = "https://github.com/octo/hello/releases/tag/v1.0") /\
    (VStr "tag" <> VStr "branch" -> VStr "tag" <> VStr "tag" ->
     url = "https://github.com/octo/hello").
Proof.
  apply (create_event_url tag_created [("name", VStr "octo/hello")]
           [("ref_type", VStr "tag"); ("ref", VStr "v1.0")]).
  split; reflexivity.
Defined.

(** X4. The message of a push, from the raw event: the count, the plural
    [s] for more than one commit, the repository, the ref with every
    [refs/heads/] removed and, when there is a commit, the first line of the
    first message. *)
Theorem push_message_of_event (event : value) (repo payload : dict) (ref : string)
    (commits : list value) (messages : list string) :
  push_event event repo payload ref commits messages ->
  let n := Z.of_nat (List.length commits) in
  simplify_then_describe (VStr "PushEvent") event =
  ([], Ok ("Pushed " ++ str_of_Z n ++ " commit" ++ (if n >? 1 then "s" else "")
           ++ " to " ++ py_str (dict_get repo "name" (VStr "unknown")) ++ "/"
           ++ str_replace "refs/heads/" "" ref
           ++ match messages with
              | [] => ""
              | first :: _ => ": " ++ line1 first
              end)).
Proof.
  intros Hpush n. pose proof (simplify_try_push _ _ _ _ _ _ Hpush) as E.
  cbv zeta in E. unfold simplify_then_describe.
  rewrite (simplify_event_details_Ok _ _ _ E). unfold bindM.
  erewrite get_human_readable_message_Ok; [reflexivity |].
  destruct messages; reflexivity.
Qed.

Lemma push_message_of_event_witness :
  simplify_then_describe (VStr "PushEvent") push_to_main =
  ([], Ok "Pushed 4 commits to octo/hello/main: Fix").
Proof.
  apply (push_message_of_event push_to_main
           [("name", VStr "octo/hello")]
           [("ref", VStr "refs/heads/main");
            ("before", VStr "1f2e3d");
            ("head", VStr "4c5b6a");
            ("commits",
             VList [commit_of (String "F" (String "i" (String "x" (String LF "body"))));
                    commit_of "Add test";
                    commit_of "Bump";
                    commit_of "Tidy"])]
           "refs/heads/main"
           [commit_of (String "F" (String "i" (String "x" (String LF "body"))));
            commit_of "Add test"; commit_of "Bump"; commit_of "Tidy"]
           [String "F" (String "i" (String "x" (String LF "body"))); "Add test"; "Bump"]).
  constructor; try reflexivity.
  repeat constructor; eexists; split; reflexivity.
Defined.

Lemma line1_first_line_of (message : string) : first_line_of message (line1 message).
Proof.
  unfold first_line_of. induction message as [| c s [IHno IHsplit]]; cbn [line1].
  - split; [reflexivity | left; reflexivity].
  - destruct (Ascii.eqb c LF) eqn:Ec.
    + apply Ascii.eqb_eq in Ec. subst c.
      split; [reflexivity | right; exists s; reflexivity].
    + cbn [str_contains_char]. rewrite Ascii.eqb_sym, Ec, IHno.
      split; [reflexivity |].
      destruct IHsplit as [Hall | [rest Hrest]].
      * left. congruence.
      * right. exists rest. simpl. congruence.
Qed.

(** X5. Each commit message kept in the details of a push is one line: it
    has no line feed, and the message of the commit is that line, alone or
    followed by a line feed and more. *)
Theorem push_commit_messages_are_single_lines (event : value) (repo payload : dict)
    (ref : string) (commits : list value) (messages : list string) :
  push_event event repo payload ref commits messages ->
  exists (d : dict) (lines : list string),
    returned (_simplify_event_details (VStr "PushEvent") event) = Ok d /\
    dict_lookup "commit_messages" d = Some (VList (map VStr lines)) /\
    Forall2 first_line_of messages lines.
Proof.
  intros Hpush. pose proof (simplify_try_push _ _ _ _ _ _ Hpush) as E.
  cbv zeta in E. eexists. exists (map line1 messages).
  rewrite (simplify_event_details_Ok _ _ _ E).
  split; [reflexivity |]. split; [reflexivity |].
  clear. induction messages as [| m ms IH]; simpl; constructor;
    [apply line1_first_line_of | exact IH].
Qed.

Lemma push_commit_messages_are_single_lines_witness :
  exists (d : dict) (lines : list string),
    returned (_simplify_event_details (VStr "PushEvent") push_to_main) = Ok d /\
    dict_lookup "commit_messages" d = Some (VList (map VStr lines)) /\
    Forall2 first_line_of
      [String "F" (String "i" (String "x" (String LF "body"))); "Add test"; "Bump"]
      lines.
Proof.
  apply (push_commit_messages_are_single_lines push_to_main
           [("name", VStr "octo/hello")]
           [("ref", VStr "refs/heads/main");
            ("before", VStr "1f2e3d");
            ("head", VStr "4c5b6a");
            ("commits",
             VList [commit_of (String "F" (String "i" (String "x" (String LF "body"))));
                    commit_of "Add test";
                    commit_of "Bump";
                    commit_of "Tidy"])]
           "refs/heads/main"
           [commit_of (String "F" (String "i" (String "x" (String LF "body"))));
            commit_of "Add test"; commit_of "Bump"; commit_of "Tidy"]).
  constructor; try reflexivity.
  repeat constructor; eexists; split; reflexivity.
Defined.

Lemma str_take_length_min (n : nat) (s : string) :
  String.length (str_take n s) = Nat.min n (String.length s).
Proof.
  revert s. induction n as [| n IH]; intros [| c s]; simpl; try reflexivity.
  rewrite IH. reflexivity.
Qed.

(** X6. The comment fragment of an issue comment is bounded: for a body of
    n characters it has min(100, n) + 3 characters, 103 at most. *)
Theorem comment_fragment_length (event : value) (body : string) :
  issue_comment_event event (VStr body) ->
  exists (d : dict) (fragment : string),
    returned (_simplify_event_details (VStr "IssueCommentEvent") event) = Ok d /\
    dict_lookup "comment_fragment" d = Some (VStr fragment) /\
    String.length fragment = (Nat.min 100 (String.length body) + 3)%nat /\
    (String.length fragment <= 103)%nat.
Proof.
  intros Hevent.
  destruct (comment_fragment_of_body _ _ Hevent) as [d [Hd Hfragment]].
  exists d, (str_take 100 body ++ "...").
  split; [exact Hd |]. split; [exact Hfragment |].
  rewrite str_length_append, str_take_length_min. simpl String.length. lia.
Qed.

Lemma comment_fragment_length_witness :
  exists (d : dict) (fragment : string),
    returned (_simplify_event_details (VStr "IssueCommentEvent") long_comment) = Ok d /\
    dict_lookup "comment_fragment" d = Some (VStr fragment) /\
    String.length fragment = (Nat.min 100 (String.length long_body) + 3)%nat /\
    (String.length fragment <= 103)%nat.
Proof.
  apply (comment_fragment_length long_comment long_body).
  exists [("name", VStr "octo/hello")],
    [("action", VStr "created");
     ("issue", VDict [("number", VInt 7)]);
     ("comment", VDict [("body", VStr long_body)])],
    [("number", VInt 7)], [("body", VStr long_body)].
  repeat split.
Defined.

Lemma describe_try_fallback (event_type : value) :
  recognized event_type = true ->
  describe_try event_type fallback_details = Raise KeyError.
Proof.
  unfold recognized, describe_try. intros H.
  repeat match goal with
         | |- context [if ?c then _ else _] => destruct c; [reflexivity |]
         end.
  discriminate H.
Qed.

Lemma describe_try_fallback_other (event_type : value) :
  recognized event_type = false ->
  describe_try event_type fallback_details =
  Ok ("Performed " ++ py_str event_type ++ " on unknown repository").
Proof.
  unfold recognized, describe_try. intros H.
  repeat match goal with
         | |- context [if ?c then _ else _] => destruct c; [discriminate H |]
         end.
  reflexivity.
Qed.

(** X7. The message of an event whose extraction fails: ["Performed
    {event_type}"] for a recognized event type, and ["Performed {event_type}
    on unknown repository"] for any other. *)
Theorem message_of_failed_extraction (event_type event : value) (e : exn) :
  simplify_try event_type event = Raise e ->
  returned (simplify_then_describe event_type event) =
  Ok (if recognized event_type then "Performed " ++ py_str event_type
      else "Performed " ++ py_str event_type ++ " on unknown repository").
Proof.
  intros H. unfold simplify_then_describe.
  rewrite returned_bindM, (simplify_event_details_Raise _ _ _ H). cbn [returned snd bind].
  destruct (recognized event_type) eqn:R.
  - rewrite (get_human_readable_message_Raise _ _ _ (describe_try_fallback _ R)).
    reflexivity.
  - rewrite (get_human_readable_message_Ok _ _ _ (describe_try_fallback_other _ R)).
    reflexivity.
Qed.

Lemma message_of_failed_extraction_witness :
  returned (simplify_then_describe (VStr "ForkEvent") VNone) =
  Ok "Performed ForkEvent on unknown repository".
Proof.
  apply (message_of_failed_extraction (VStr "ForkEvent") VNone AttributeError).
  reflexivity.
Defined.

(** X8. A payload that is no mapping: every recognized event type falls
    back, and an event type without a rule of its own is still projected to
    its type, repository and repository URL. *)
Theorem payload_not_a_mapping (event_type event : value) (repo : dict)
    (payload : value) :
  py_get event "repo" (VDict []) = Ok (VDict repo) ->
  py_get event "payload" (VDict []) = Ok payload ->
  (forall p : dict, payload <> VDict p) ->
  returned (_simplify_event_details event_type event) =
  Ok (if recognized event_type then fallback_details
      else [("event_type", event_type);
            ("repository", dict_get repo "name" (VStr "unknown"));
            ("repository_url",
             VStr ("https://github.com/"
                   ++ py_str (dict_get repo "name" (VStr "unknown"))))]).
Proof.
  intros Hrepo Hpayload Hno.
  assert (Hget : forall k v, py_get payload k v = Raise AttributeError).
  { intros k v. destruct payload; try reflexivity. destruct (Hno entries). reflexivity. }
  assert (E : simplify_try event_type event =
              if recognized event_type then Raise AttributeError
              else Ok [("event_type", event_type);
                       ("repository", dict_get repo "name" (VStr "unknown"));
                       ("repository_url",
                        VStr ("https://github.com/"
                              ++ py_str (dict_get repo "name" (VStr "unknown"))))]).
  { unfold simplify_try, recognized. rewrite Hrepo, Hpayload.
    cbn [py_get bind].
    repeat match goal with
           | |- context [if ?c then _ else _] =>
               destruct c; [rewrite Hget; reflexivity |]
           end.
    reflexivity. }
  destruct (recognized event_type).
  - rewrite (simplify_event_details_Raise _ _ _ E). reflexivity.
  - rewrite (simplify_event_details_Ok _ _ _ E). reflexivity.
Qed.

Lemma payload_not_a_mapping_witness :
  returned (_simplify_event_details (VStr "ForkEvent") event_without_payload) =
  Ok [("event_type", VStr "ForkEvent");
      ("repository", VStr "octo/hello");
      ("repository_url", VStr "https://github.com/octo/hello")].
Proof.
  apply (payload_not_a_mapping (VStr "ForkEvent") event_without_payload
           [("name", VStr "octo/hello")] VNone).
  - reflexivity.
  - reflexivity.
  - discriminate.
Defined.

(** * Further facts about the GitHub source *)

Lemma prefix_app (p s : string) :
  prefix p s = true <-> exists rest : string, s = p ++ rest.
Proof.
  revert s. induction p as [| a p IH]; intros [| b s]; simpl.
  - split; [intros _; exists ""; reflexivity | intros _; reflexivity].
  - split; [intros _; exists (String b s); reflexivity | intros _; reflexivity].
  - split; [discriminate | intros [rest H]; discriminate H].
  - destruct (ascii_dec a b) as [-> | Hne].
    + rewrite IH. split; intros [rest H]; exists rest; congruence.
    + split; [discriminate | intros [rest H]; congruence].
Qed.

Lemma str_append_assoc (s1 s2 s3 : string) : (s1 ++ s2) ++ s3 = s1 ++ (s2 ++ s3).
Proof.
  induction s1 as [| c s1 IH]; simpl; [reflexivity | rewrite IH; reflexivity].
Qed.

Lemma is_org_event_in_organization (self : GitHubActivitySource.t) (org : string)
    (event : value) :
  organization_filter self = Some org ->
  (_is_org_event self event = Ok true <-> in_organization org event = true).
Proof.
  intros Horg. unfold _is_org_event, in_organization. rewrite Horg.
  destruct event; simpl; try (split; discriminate).
  destruct (dict_get entries "repo" (VDict [])); simpl; try (split; discriminate).
  destruct (dict_get entries0 "name" (VStr "")); simpl; try (split; discriminate).
  split; [intros H; injection H; trivial | intros ->; reflexivity].
Qed.

(** X9. The organization filter.  Without an organization, or with the
    empty one, every event passes, whatever its shape.  With the
    organization [org], an event whose repository name is the string [name]
    passes exactly when [name] is [org/] followed by something: [org] itself
    and a longer organization name that begins with [org] do not pass. *)
Theorem is_org_event_prefix (self : GitHubActivitySource.t) (event : value) :
  (organization_filter self = None -> _is_org_event self event = Ok true) /\
  (forall (org name : string) (fields repo : dict),
      organization_filter self = Some org ->
      event = VDict fields ->
      dict_get fields "repo" (VDict []) = VDict repo ->
      dict_get repo "name" (VStr "") = VStr name ->
      exists b : bool,
        _is_org_event self event = Ok b /\
        (b = true <-> exists rest : string, name = org ++ "/" ++ rest)).
Proof.
  split.
  - intros H. unfold _is_org_event. rewrite H. reflexivity.
  - intros org name fields repo Horg -> Hrepo Hname.
    exists (prefix (org ++ "/") name). split.
    + unfold _is_org_event. rewrite Horg. simpl. rewrite Hrepo. simpl.
      rewrite Hname. reflexivity.
    + rewrite prefix_app.
      split; intros [rest H]; exists rest; rewrite H;
        [| symmetry]; apply str_append_assoc.
Qed.

Lemma is_org_event_prefix_witness :
  exists b : bool,
    _is_org_event acme_source (starred "acme-labs/widgets" "2024-02-20T12:00:00Z") = Ok b /\
    (b = true <-> exists rest : string, "acme-labs/widgets" = "acme" ++ "/" ++ rest).
Proof.
  apply (proj2 (is_org_event_prefix acme_source
                  (starred "acme-labs/widgets" "2024-02-20T12:00:00Z"))
           "acme" "acme-labs/widgets"
           [("type", VStr "WatchEvent");
            ("created_at", VStr "2024-02-20T12:00:00Z");
            ("repo", VDict [("name", VStr "acme-labs/widgets")]);
            ("payload", VDict [("action", VStr "started")])]
           [("name", VStr "acme-labs/widgets")]); reflexivity.
Defined.

Section Feed.

Variable fromisoformat : string -> result datetime.
Variable isoformat : datetime -> string.

Lemma process_event_returned (self : GitHubActivitySource.t) (event : value) :
  exists produced : option Activity,
    returned (process_event fromisoformat self event) = Ok produced.
Proof.
  unfold process_event. rewrite returned_try_except.
  match goal with |- context [match ?r with _ => _ end] => destruct r as [o | e] end.
  - exists o. reflexivity.
  - exists None. cbn [Exception]. rewrite returned_log_exc_then. reflexivity.
Qed.

Lemma process_events_returned (self : GitHubActivitySource.t) (events : list value)
    (activities : list Activity) :
  returned (process_events fromisoformat self events activities) =
  Ok (activities ++ flat_map (produced fromisoformat self) events)%list.
Proof.
  revert activities.
  induction events as [| event rest IH]; intros activities;
    cbn [process_events flat_map].
  - rewrite app_nil_r. reflexivity.
  - rewrite returned_bindM. unfold produced at 1.
    destruct (process_event_returned self event) as [[activity |] H]; rewrite H;
      cbn [bind]; rewrite IH.
    + rewrite <- app_assoc. reflexivity.
    + reflexivity.
Qed.

Lemma fetch_and_process_returned (self : GitHubActivitySource.t) (username : string) :
  returned (fetch_and_process fromisoformat self username) =
  (events_data <-
     returned (_fetch_github_data self
                 ("https://api.github.com/users/" ++ username ++ "/events")) ;;
   events <- py_iter events_data ;;
   Ok (flat_map (produced fromisoformat self) events)).
Proof.
  unfold fetch_and_process. cbv zeta.
  rewrite returned_bindM, returned_try_except.
  destruct (returned (_fetch_github_data self _)) as [events_data | e];
    cbn [bind Exception].
  - rewrite returned_bindM, returned_lift.
    destruct (py_iter events_data) as [events | e]; cbn [bind]; [| reflexivity].
    rewrite returned_bindM, process_events_returned. cbn [bind app].
    rewrite returned_log_then. reflexivity.
  - rewrite returned_log_exc_then. reflexivity.
Qed.

Lemma fetch_with_feed (self : GitHubActivitySource.t) (events : list value)
    (url : string) :
  returned (_fetch_github_data (with_feed self events) url) = Ok (VList events).
Proof. reflexivity. Qed.

Lemma get_activities_with_feed (self : GitHubActivitySource.t) (events : list value)
    (username : string) (start_date end_date : option datetime) :
  returned (GitHubActivitySource.get_activities fromisoformat isoformat
              (with_feed self events) username start_date end_date) =
  Ok (flat_map (produced fromisoformat self) events).
Proof.
  rewrite get_activities_returned, fetch_and_process_returned, fetch_with_feed.
  reflexivity.
Qed.

End Feed.

Section Events.

Variable fromisoformat : string -> result datetime.
Variable isoformat : datetime -> string.

Lemma produced_outcome (self : GitHubActivitySource.t) (event : value) :
  produced fromisoformat self event =
  match event_outcome fromisoformat self event with
  | Ok (Some activity) => [activity]
  | _ => []
  end.
Proof.
  unfold produced, process_event, event_outcome.
  rewrite returned_try_except, returned_bindM, returned_lift.
  destruct (_is_org_event self event) as [[|] | e]; cbn [bind negb Exception];
    rewrite ?returned_log_exc_then, ?returned_ret; try reflexivity.
  rewrite returned_bindM, returned_lift.
  destruct (py_getitem event "type") as [event_type | e]; cbn [bind Exception];
    rewrite ?returned_log_exc_then, ?returned_ret; try reflexivity.
  rewrite returned_bindM.
  destruct (returned (_simplify_event_details event_type event)) as [d | e];
    cbn [bind Exception]; rewrite ?returned_log_exc_then, ?returned_ret;
    try reflexivity.
  rewrite returned_bindM, returned_lift. cbn [bind]. rewrite returned_bindM.
  destruct (returned (_get_human_readable_message event_type d)) as [m | e];
    cbn [bind Exception]; rewrite ?returned_log_exc_then, ?returned_ret;
    try reflexivity.
  rewrite returned_bindM, returned_lift.
  destruct (py_getitem event "created_at") as [created_at | e]; cbn [bind Exception];
    rewrite ?returned_log_exc_then, ?returned_ret; try reflexivity.
  rewrite returned_bindM, returned_lift.
  destruct (py_replace created_at "Z" "+00:00") as [iso | e]; cbn [bind Exception];
    rewrite ?returned_log_exc_then, ?returned_ret; try reflexivity.
  rewrite returned_bindM, returned_lift.
  destruct (fromisoformat iso) as [when | e]; cbn [bind Exception];
    rewrite ?returned_log_exc_then, ?returned_ret; reflexivity.
Qed.

Lemma event_outcome_Some (self : GitHubActivitySource.t) (event : value)
    (activity : Activity) :
  event_outcome fromisoformat self event = Ok (Some activity) ->
  _is_org_event self event = Ok true /\
  exists (event_type : value) (d : dict) (m created_at : string) (when : datetime),
    py_getitem event "type" = Ok event_type /\
    returned (_simplify_event_details event_type event) = Ok d /\
    returned (_get_human_readable_message event_type d) = Ok m /\
    py_getitem event "created_at" = Ok (VStr created_at) /\
    fromisoformat (str_replace "Z" "+00:00" created_at) = Ok when /\
    activity = mk_Activity "github" when event_type d m.
Proof.
  unfold event_outcome. intros H.
  apply bind_Ok_inv in H. destruct H as [keep [Hkeep H]].
  destruct keep; cbn [negb] in H; [| discriminate H].
  split; [exact Hkeep |].
  apply bind_Ok_inv in H. destruct H as [event_type [Htype H]].
  apply bind_Ok_inv in H. destruct H as [d [Hd H]].
  apply bind_Ok_inv in H. destruct H as [m [Hm H]].
  apply bind_Ok_inv in H. destruct H as [created [Hcreated H]].
  apply bind_Ok_inv in H. destruct H as [iso [Hiso H]].
  apply bind_Ok_inv in H. destruct H as [when [Hwhen H]].
  destruct created; try discriminate Hiso. injection Hiso as <-.
  injection H as <-.
  exists event_type, d, m, s, when. repeat (split; [assumption |]). reflexivity.
Qed.

Lemma produced_Some (self : GitHubActivitySource.t) (event : value)
    (activity : Activity) :
  In activity (produced fromisoformat self event) ->
  event_outcome fromisoformat self event = Ok (Some activity).
Proof.
  rewrite produced_outcome.
  destruct (event_outcome fromisoformat self event) as [[a |] | e]; simpl;
    intros H; try contradiction.
  destruct H as [-> | []]. reflexivity.
Qed.

Lemma produced_nil (self : GitHubActivitySource.t) (event : value) :
  (forall activity : Activity,
      event_outcome fromisoformat self event <> Ok (Some activity)) ->
  produced fromisoformat self event = [].
Proof.
  intros H. rewrite produced_outcome.
  destruct (event_outcome fromisoformat self event) as [[a |] | e]; try reflexivity.
  destruct (H a). reflexivity.
Qed.

End Events.

(** X10. The events of a feed are processed one by one and in their order:
    the activities of a feed made of two parts are the activities of the
    first part followed by those of the second. *)
Theorem get_activities_feed_app (fromisoformat : string -> result datetime)
    (isoformat : datetime -> string) (self : GitHubActivitySource.t)
    (first_part second_part : list value) (username : string)
    (start_date end_date : option datetime) :
  exists first_activities second_activities : list Activity,
    returned (GitHubActivitySource.get_activities fromisoformat isoformat
                (with_feed self first_part) username start_date end_date)
    = Ok first_activities /\
    returned (GitHubActivitySource.get_activities fromisoformat isoformat
                (with_feed self second_part) username start_date end_date)
    = Ok second_activities /\
    returned (GitHubActivitySource.get_activities fromisoformat isoformat
                (with_feed self (first_part ++ second_part)) username start_date end_date)
    = Ok (first_activities ++ second_activities)%list.
Proof.
  eexists. eexists. rewrite !get_activities_with_feed, flat_map_app.
  repeat split.
Qed.

(** X11. Every activity that [get_activities] returns has the source
    [github], and its message is the message of its own type and details. *)
Theorem get_activities_invariant (fromisoformat : string -> result datetime)
    (isoformat : datetime -> string) (self : GitHubActivitySource.t)
    (username : string) (start_date end_date : option datetime)
    (activities : list Activity) :
  returned (GitHubActivitySource.get_activities fromisoformat isoformat self username
              start_date end_date) = Ok activities ->
  Forall (fun activity =>
            source activity = "github" /\
            returned (_get_human_readable_message (type activity) (details activity))
            = Ok (message activity))
         activities.
Proof.
  rewrite get_activities_returned, fetch_and_process_returned. intros H.
  apply bind_Ok_inv in H. destruct H as [events_data [_ H]].
  apply bind_Ok_inv in H. destruct H as [events [_ H]].
  injection H as <-. rewrite Forall_forall. intros activity Hin.
  apply in_flat_map in Hin. destruct Hin as [event [_ Hin]].
  apply produced_Some, event_outcome_Some in Hin.
  destruct Hin as [_ (event_type & d & m & created_at & when & _ & _ & Hm & _ & _ & ->)].
  split; [reflexivity | exact Hm].
Qed.

Lemma get_activities_invariant_witness :
  Forall (fun activity =>
            source activity = "github" /\
            returned (_get_human_readable_message (type activity) (details activity))
            = Ok (message activity))
         [mk_Activity "github" noon_2024_02_20 (VStr "PushEvent")
            [("repository", VStr "unknown");
             ("repository_url", VStr "https://github.com/unknown");
             ("ref", VStr "unknown");
             ("commit_count", VInt 1);
             ("commit_messages", VList [VStr "test commit"]);
             ("compare_url", VStr "https://github.com/unknown/compare/...")]
            "Pushed 1 commit to unknown/unknown: test commit"].
Proof.
  apply (get_activities_invariant (fun _ => Ok noon_2024_02_20) show_datetime
           mock_github_source "testuser" None None).
  reflexivity.
Defined.

Lemma fetch_github_data_Raise (self : GitHubActivitySource.t) (url : string) (e : exn) :
  session_get self url (request_headers self) = Raise e ->
  returned (_fetch_github_data self url) = Raise e.
Proof.
  intros H. unfold _fetch_github_data.
  rewrite returned_log_then, returned_try_except, returned_bindM, returned_lift, H.
  cbn [bind]. destruct (is_RequestException e); [| reflexivity].
  rewrite returned_log_exc_then. reflexivity.
Qed.

(** X12. An exception of the session, of whatever class, leaves
    [get_activities] as it is: no activity is returned for a feed that
    could not be fetched. *)
Theorem get_activities_fetch_failure (fromisoformat : string -> result datetime)
    (isoformat : datetime -> string) (self : GitHubActivitySource.t)
    (username : string) (start_date end_date : option datetime) (e : exn) :
  session_get self ("https://api.github.com/users/" ++ username ++ "/events")
    (request_headers self) = Raise e ->
  returned (GitHubActivitySource.get_activities fromisoformat isoformat self username
              start_date end_date) = Raise e.
Proof.
  intros H. rewrite get_activities_returned, fetch_and_process_returned.
  rewrite (fetch_github_data_Raise _ _ _ H). reflexivity.
Qed.

Lemma get_activities_fetch_failure_witness :
  returned (GitHubActivitySource.get_activities (fun _ => Ok noon_2024_02_20) show_datetime
              unreachable_source "octocat" None None) = Raise ConnectionError.
Proof.
  apply (get_activities_fetch_failure (fun _ => Ok noon_2024_02_20) show_datetime
           unreachable_source "octocat" None None ConnectionError).
  reflexivity.
Defined.

Lemma event_outcome_not_a_mapping (fromisoformat : string -> result datetime)
    (self : GitHubActivitySource.t) (event : value) (activity : Activity) :
  (forall fields : dict, event <> VDict fields) ->
  event_outcome fromisoformat self event <> Ok (Some activity).
Proof.
  intros Hno H. apply event_outcome_Some in H.
  destruct H as [_ (event_type & _ & _ & _ & _ & Htype & _)].
  destruct event; try discriminate Htype. destruct (Hno entries). reflexivity.
Qed.

Lemma flat_map_nil {A B : Type} (f : A -> list B) (l : list A) :
  (forall a, In a l -> f a = []) -> flat_map f l = [].
Proof.
  induction l as [| a l IH]; simpl; intros H; [reflexivity |].
  rewrite (H a (or_introl eq_refl)), IH; [reflexivity |].
  intros b Hb. apply H. right. exact Hb.
Qed.

(** X13. A body that is no JSON list.  For an object or a string the loop
    runs over keys or characters, skips each of them, and [get_activities]
    returns no activity; for [null], a boolean or a number the loop cannot
    start and [get_activities] raises a [TypeError]. *)
Theorem get_activities_body_not_a_list (fromisoformat : string -> result datetime)
    (isoformat : datetime -> string) (self : GitHubActivitySource.t)
    (username : string) (start_date end_date : option datetime) (body : value) :
  returned (_fetch_github_data self
              ("https://api.github.com/users/" ++ username ++ "/events")) = Ok body ->
  (forall events : list value, body <> VList events) ->
  returned (GitHubActivitySource.get_activities fromisoformat isoformat self username
              start_date end_date) =
  match body with
  | VDict _ | VStr _ => Ok []
  | _ => Raise TypeError
  end.
Proof.
  intros Hfetch Hno. rewrite get_activities_returned, fetch_and_process_returned, Hfetch.
  cbn [bind].
  destruct body as [| b | n | s | events | fields]; cbn [py_iter bind]; try reflexivity.
  - f_equal. apply flat_map_nil. intros event Hin. apply produced_nil.
    intros activity. apply event_outcome_not_a_mapping.
    intros d ->. clear - Hin. induction s as [| c s IH]; simpl in Hin; [contradiction |].
    destruct Hin as [H | H]; [discriminate H | exact (IH H)].
  - destruct (Hno events). reflexivity.
  - f_equal. apply flat_map_nil. intros event Hin. apply produced_nil.
    intros activity. apply event_outcome_not_a_mapping.
    intros d ->. apply in_map_iff in Hin. destruct Hin as [kv [H _]]. discriminate H.
Qed.

Lemma get_activities_body_not_a_list_witness :
  returned (GitHubActivitySource.get_activities (fun _ => Ok noon_2024_02_20) show_datetime
              object_source "octocat" None None) = Ok [].
Proof.
  apply (get_activities_body_not_a_list (fun _ => Ok noon_2024_02_20) show_datetime
           object_source "octocat" None None (VDict [("message", VStr "Not Found")])).
  - reflexivity.
  - discriminate.
Defined.

(** X14. With an organization configured, [get_activities] returns what it
    returns for the feed without the events of other organizations: only
    events whose repository name begins with [org/] are kept. *)
Theorem get_activities_keeps_organization (fromisoformat : string -> result datetime)
    (isoformat : datetime -> string) (self : GitHubActivitySource.t) (org : string)
    (events : list value) (username : string) (start_date end_date : option datetime) :
  organization_filter self = Some org ->
  returned (GitHubActivitySource.get_activities fromisoformat isoformat
              (with_feed self events) username start_date end_date) =
  returned (GitHubActivitySource.get_activities fromisoformat isoformat
              (with_feed self (filter (in_organization org) events))
              username start_date end_date).
Proof.
  intros Horg. rewrite !get_activities_with_feed. f_equal.
  induction events as [| event events IH]; simpl; [reflexivity |].
  destruct (in_organization org event) eqn:Hin; simpl; rewrite IH; [reflexivity |].
  rewrite produced_nil; [reflexivity |].
  intros activity H. apply event_outcome_Some in H. destruct H as [H _].
  apply (is_org_event_in_organization _ _ _ Horg) in H. congruence.
Qed.

Lemma get_activities_keeps_organization_witness :
  returned (GitHubActivitySource.get_activities (fun _ => Ok noon_2024_02_20) show_datetime
              (with_feed acme_source
                 [starred "acme/widgets" "2024-02-20T12:00:00Z";
                  starred "other/widgets" "2024-02-20T12:00:00Z"])
              "octocat" None None) =
  returned (GitHubActivitySource.get_activities (fun _ => Ok noon_2024_02_20) show_datetime
              (with_feed acme_source [starred "acme/widgets" "2024-02-20T12:00:00Z"])
              "octocat" None None).
Proof.
  apply (get_activities_keeps_organization (fun _ => Ok noon_2024_02_20) show_datetime
           acme_source "acme"
           [starred "acme/widgets" "2024-02-20T12:00:00Z";
            starred "other/widgets" "2024-02-20T12:00:00Z"]
           "octocat" None None).
  reflexivity.
Defined.

(** X15. One bad event never aborts the batch: an event without type,
    without creation time, or with a creation time that
    [datetime.fromisoformat] rejects is skipped, and the activities of the
    events before and after it are returned as if it were not in the feed. *)
Theorem get_activities_skips_bad_event (fromisoformat : string -> result datetime)
    (isoformat : datetime -> string) (self : GitHubActivitySource.t)
    (before after : list value) (fields : dict) (username : string)
    (start_date end_date : option datetime) :
  dict_lookup "type" fields = None \/
  dict_lookup "created_at" fields = None \/
  (exists (created_at : string) (e : exn),
      dict_lookup "created_at" fields = Some (VStr created_at) /\
      fromisoformat (str_replace "Z" "+00:00" created_at) = Raise e) ->
  returned (GitHubActivitySource.get_activities fromisoformat isoformat
              (with_feed self (before ++ VDict fields :: after))
              username start_date end_date) =
  returned (GitHubActivitySource.get_activities fromisoformat isoformat
              (with_feed self (before ++ after)) username start_date end_date).
Proof.
  intros Hbad. rewrite !get_activities_with_feed, !flat_map_app. simpl.
  rewrite produced_nil; [reflexivity |].
  intros activity H. apply event_outcome_Some in H.
  destruct H as [_ (event_type & d & m & created_at & when & Htype & _ & _ & Hc & Hw & _)].
  unfold py_getitem in Htype, Hc.
  destruct Hbad as [Hbad | [Hbad | (c & e & Hbad & He)]].
  - rewrite Hbad in Htype. discriminate Htype.
  - rewrite Hbad in Hc. discriminate Hc.
  - rewrite Hbad in Hc. injection Hc as <-. congruence.
Qed.

Lemma get_activities_skips_bad_event_witness :
  returned (GitHubActivitySource.get_activities (fun _ => Ok noon_2024_02_20) show_datetime
              (with_feed acme_source
                 ([starred "acme/widgets" "2024-02-20T12:00:00Z"]
                    ++ VDict [("type", VStr "WatchEvent");
                              ("repo", VDict [("name", VStr "acme/widgets")]);
                              ("payload", VDict [("action", VStr "started")])]
                    :: [starred "acme/gadgets" "2024-02-20T12:00:00Z"]))
              "octocat" None None) =
  returned (GitHubActivitySource.get_activities (fun _ => Ok noon_2024_02_20) show_datetime
              (with_feed acme_source
                 ([starred "acme/widgets" "2024-02-20T12:00:00Z"]
                    ++ [starred "acme/gadgets" "2024-02-20T12:00:00Z"]))
              "octocat" None None).
Proof.
  apply (get_activities_skips_bad_event (fun _ => Ok noon_2024_02_20) show_datetime
           acme_source [starred "acme/widgets" "2024-02-20T12:00:00Z"]
           [starred "acme/gadgets" "2024-02-20T12:00:00Z"]
           [("type", VStr "WatchEvent");
            ("repo", VDict [("name", VStr "acme/widgets")]);
            ("payload", VDict [("action", VStr "started")])]
           "octocat" None None).
  right. left. reflexivity.
Defined.

Lemma simplify_event_details_returned (event_type event : value) :
  exists d : dict, returned (_simplify_event_details event_type event) = Ok d.
Proof.
  destruct (simplify_try event_type event) as [d | e] eqn:E.
  - exists d. rewrite (simplify_event_details_Ok _ _ _ E). reflexivity.
  - exists fallback_details. rewrite (simplify_event_details_Raise _ _ _ E). reflexivity.
Qed.

Lemma get_human_readable_message_returned (event_type : value) (d : dict) :
  exists m : string, returned (_get_human_readable_message event_type d) = Ok m.
Proof.
  destruct (describe_try event_type d) as [m | e] eqn:E.
  - exists m. rewrite (get_human_readable_message_Ok _ _ _ E). reflexivity.
  - eexists. rewrite (get_human_readable_message_Raise _ _ _ E). reflexivity.
Qed.

(** X16. An event that passes the organization filter and has a type and a
    creation time that parses gives one activity: its source is [github],
    its time stamp is the creation time parsed with its [Z] replaced by
    [+00:00], its type is the type of the event, and its details and message
    are those of the normalizer. *)
Theorem get_activities_single_event (fromisoformat : string -> result datetime)
    (isoformat : datetime -> string) (self : GitHubActivitySource.t)
    (fields : dict) (event_type : value) (created_at : string) (when : datetime)
    (username : string) (start_date end_date : option datetime) :
  _is_org_event self (VDict fields) = Ok true ->
  dict_lookup "type" fields = Some event_type ->
  dict_lookup "created_at" fields = Some (VStr created_at) ->
  fromisoformat (str_replace "Z" "+00:00" created_at) = Ok when ->
  exists (d : dict) (m : string),
    returned (_simplify_event_details event_type (VDict fields)) = Ok d /\
    returned (_get_human_readable_message event_type d) = Ok m /\
    returned (GitHubActivitySource.get_activities fromisoformat isoformat
                (with_feed self [VDict fields]) username start_date end_date)
    = Ok [mk_Activity "github" when event_type d m].
Proof.
  intros Horg Htype Hcreated Hwhen.
  destruct (simplify_event_details_returned event_type (VDict fields)) as [d Hd].
  destruct (get_human_readable_message_returned event_type d) as [m Hm].
  exists d, m. split; [exact Hd |]. split; [exact Hm |].
  rewrite get_activities_with_feed. cbn [flat_map]. rewrite app_nil_r.
  rewrite produced_outcome. unfold event_outcome, py_getitem.
  rewrite Horg, Htype, Hcreated. cbn [bind negb]. rewrite Hd. cbn [bind].
  rewrite Hm. cbn [bind py_replace]. rewrite Hwhen. reflexivity.
Qed.

Lemma get_activities_single_event_witness :
  exists (d : dict) (m : string),
    returned (_simplify_event_details (VStr "WatchEvent")
                (starred "acme/widgets" "2024-02-20T12:00:00Z")) = Ok d /\
    returned (_get_human_readable_message (VStr "WatchEvent") d) = Ok m /\
    returned (GitHubActivitySource.get_activities
                (fun iso => if String.eqb iso "2024-02-20T12:00:00+00:00"
                            then Ok noon_2024_02_20 else Raise ValueError)
                show_datetime
                (with_feed acme_source [starred "acme/widgets" "2024-02-20T12:00:00Z"])
                "octocat" None None)
    = Ok [mk_Activity "github" noon_2024_02_20 (VStr "WatchEvent") d m].
Proof.
  apply (get_activities_single_event
           (fun iso => if String.eqb iso "2024-02-20T12:00:00+00:00"
                       then Ok noon_2024_02_20 else Raise ValueError)
           show_datetime acme_source
           [("type", VStr "WatchEvent");
            ("created_at", VStr "2024-02-20T12:00:00Z");
            ("repo", VDict [("name", VStr "acme/widgets")]);
            ("payload", VDict [("action", VStr "started")])]
           (VStr "WatchEvent") "2024-02-20T12:00:00Z" noon_2024_02_20
           "octocat" None None); reflexivity.
Defined.

(** * Further facts about the transport and the credentials *)

Lemma fetch_github_data_Ok_inv (self : GitHubActivitySource.t) (url : string)
    (data : value) :
  returned (_fetch_github_data self url) = Ok data ->
  exists r : response,
    session_get self url (request_headers self) = Ok r /\
    (status_code r < 400 \/ 600 <= status_code r) /\
    json r = Ok data.
Proof.
  unfold _fetch_github_data.
  rewrite returned_log_then, returned_try_except, returned_bindM, returned_lift.
  destruct (session_get self url (request_headers self)) as [r | e]; cbn [bind].
  - rewrite returned_log_then, returned_bindM.
    match goal with
    | |- context [bind ?c _] => destruct c as [[] | e]
    end; cbn [bind].
    + rewrite returned_bindM, !returned_lift. unfold raise_for_status.
      destruct ((400 <=? status_code r) && (status_code r <? 600)) eqn:Hs; cbn [bind].
      * destruct (is_RequestException (HTTPError (status_code r)));
          rewrite ?returned_log_exc_then, ?returned_raise; discriminate.
      * destruct (json r) as [v | e] eqn:Hj.
        -- intros H. exists r. split; [reflexivity |].
           split; [| congruence].
           apply andb_false_iff in Hs.
           destruct Hs as [Hs | Hs]; [apply Z.leb_gt in Hs | apply Z.ltb_ge in Hs]; lia.
        -- destruct (is_RequestException e);
             rewrite ?returned_log_exc_then, ?returned_raise; discriminate.
    + destruct (is_RequestException e);
        rewrite ?returned_log_exc_then, ?returned_raise; discriminate.
  - destruct (is_RequestException e);
      rewrite ?returned_log_exc_then, ?returned_raise; discriminate.
Qed.

Lemma not_error_status (r : response) :
  status_code r < 400 \/ 600 <= status_code r ->
  (400 <=? status_code r) && (status_code r <? 600) = false /\
  rate_limit_exceeded r = false.
Proof.
  intros H. unfold rate_limit_exceeded. split.
  - apply andb_false_iff. destruct H; [left; apply Z.leb_gt | right; apply Z.ltb_ge]; lia.
  - apply andb_false_iff. left. apply Z.eqb_neq. lia.
Qed.

Lemma fetch_github_data_of_response (self : GitHubActivitySource.t) (url : string)
    (r : response) :
  session_get self url (request_headers self) = Ok r ->
  status_code r < 400 \/ 600 <= status_code r ->
  returned (_fetch_github_data self url) =
  match json r with
  | Ok data => Ok data
  | Raise e => Raise e
  end.
Proof.
  intros Hget Hstatus. destruct (not_error_status r Hstatus) as [Hs Hrate].
  unfold rate_limit_exceeded in Hrate. unfold _fetch_github_data.
  rewrite returned_log_then, returned_try_except, returned_bindM, returned_lift, Hget.
  cbn [bind]. rewrite returned_log_then, returned_bindM, Hrate, returned_ret.
  cbn [bind]. rewrite returned_bindM, !returned_lift. unfold raise_for_status.
  rewrite Hs. cbn [bind].
  destruct (json r) as [data | e]; [reflexivity |].
  destruct (is_RequestException e); [| reflexivity].
  rewrite returned_log_exc_then. reflexivity.
Qed.

(** X17. [_fetch_github_data] returns data exactly when the session answers
    with a response without error status (below 400, or 600 and above) whose
    body is JSON, and the data are that body. *)
Theorem fetch_github_data_Ok (self : GitHubActivitySource.t) (url : string)
    (data : value) :
  returned (_fetch_github_data self url) = Ok data <->
  exists r : response,
    session_get self url (request_headers self) = Ok r /\
    (status_code r < 400 \/ 600 <= status_code r) /\
    json r = Ok data.
Proof.
  split.
  - apply fetch_github_data_Ok_inv.
  - intros (r & Hget & Hstatus & Hjson).
    rewrite (fetch_github_data_of_response _ _ _ Hget Hstatus), Hjson. reflexivity.
Qed.

Lemma fetch_github_data_Ok_witness :
  exists r : response,
    session_get mock_github_source "https://api.github.com/users/testuser/events"
      (request_headers mock_github_source) = Ok r /\
    (status_code r < 400 \/ 600 <= status_code r) /\
    json r = Ok (VList [test_push_event]).
Proof.
  apply (proj1 (fetch_github_data_Ok mock_github_source
                  "https://api.github.com/users/testuser/events"
                  (VList [test_push_event]))).
  reflexivity.
Defined.

Lemma validate_credentials_of_fetch (self : GitHubActivitySource.t) :
  returned (GitHubActivitySource.validate_credentials self) =
  match returned (_fetch_github_data self "https://api.github.com/user") with
  | Ok _ => Ok true
  | Raise e => if is_RequestException e then Ok false else Raise e
  end.
Proof.
  unfold GitHubActivitySource.validate_credentials.
  rewrite returned_log_then, returned_try_except, returned_bindM.
  destruct (returned (_fetch_github_data self "https://api.github.com/user"))
    as [data | e]; cbn [bind].
  - rewrite returned_log_then. reflexivity.
  - destruct (is_RequestException e); [| reflexivity].
    rewrite returned_log_exc_then. reflexivity.
Qed.

(** X18. [validate_credentials] returns [True] exactly when the request for
    the profile of the user is answered without error status and with a
    JSON body. *)
Theorem validate_credentials_true (self : GitHubActivitySource.t) :
  returned (GitHubActivitySource.validate_credentials self) = Ok true <->
  exists (r : response) (data : value),
    session_get self "https://api.github.com/user" (request_headers self) = Ok r /\
    (status_code r < 400 \/ 600 <= status_code r) /\
    json r = Ok data.
Proof.
  rewrite validate_credentials_of_fetch. split.
  - destruct (returned (_fetch_github_data self "https://api.github.com/user"))
      as [data | e] eqn:Hfetch.
    + intros _. apply fetch_github_data_Ok_inv in Hfetch.
      destruct Hfetch as [r H]. exists r, data. exact H.
    + destruct (is_RequestException e); discriminate.
  - intros (r & data & Hget & Hstatus & Hjson).
    rewrite (fetch_github_data_of_response _ _ _ Hget Hstatus), Hjson. reflexivity.
Qed.

Lemma validate_credentials_true_witness :
  returned (GitHubActivitySource.validate_credentials mock_github_source) = Ok true.
Proof.
  apply (proj2 (validate_credentials_true mock_github_source)).
  exists (mk_response 200 [] (Ok (VList [test_push_event]))), (VList [test_push_event]).
  split; [reflexivity |]. split; [left; reflexivity | reflexivity].
Defined.

(** X19. [validate_credentials] returns [False] when the session raises a
    [requests.RequestException], and when the response has an error status
    and does not enter the rate-limit branch. *)
Theorem validate_credentials_false (self : GitHubActivitySource.t) :
  (exists e : exn,
      session_get self "https://api.github.com/user" (request_headers self) = Raise e /\
      is_RequestException e = true) \/
  (exists r : response,
      session_get self "https://api.github.com/user" (request_headers self) = Ok r /\
      rate_limit_exceeded r = false /\
      400 <= status_code r < 600) ->
  returned (GitHubActivitySource.validate_credentials self) = Ok false.
Proof.
  intros [(e & Hget & He) | (r & Hget & Hrate & Hstatus)].
  - exact (validate_credentials_request_failure self e Hget He).
  - rewrite (validate_credentials_response self r Hget Hrate).
    replace ((400 <=? status_code r) && (status_code r <? 600)) with true;
      [reflexivity |].
    symmetry. apply andb_true_iff. split; [apply Z.leb_le | apply Z.ltb_lt]; lia.
Qed.

Lemma validate_credentials_false_witness :
  returned (GitHubActivitySource.validate_credentials
              (source_answering (mk_response 401 [] (Ok (VDict []))))) = Ok false.
Proof.
  apply (validate_credentials_false
           (source_answering (mk_response 401 [] (Ok (VDict []))))).
  right. exists (mk_response 401 [] (Ok (VDict []))).
  split; [reflexivity |]. split; [reflexivity |]. simpl. lia.
Defined.

(** X20. An exhausted rate limit, reported as GitHub reports it (status 403,
    no request remaining, a reset time in seconds) makes
    [validate_credentials] return [False], provided that [int] reads the
    reset time and [datetime.fromtimestamp] converts it. *)
Theorem validate_credentials_rate_limit (self : GitHubActivitySource.t) (r : response)
    (reset : string) (seconds : Z) (reset_time : datetime) :
  session_get self "https://api.github.com/user" (request_headers self) = Ok r ->
  rate_limit_exceeded r = true ->
  headers_lookup "X-RateLimit-Reset" (headers r) = Some reset ->
  py_int reset = Ok seconds ->
  fromtimestamp self seconds = Ok reset_time ->
  returned (GitHubActivitySource.validate_credentials self) = Ok false.
Proof.
  intros Hget Hrate Hreset Hint Hclock.
  unfold GitHubActivitySource.validate_credentials, _fetch_github_data.
  rewrite returned_log_then, returned_try_except, returned_bindM, returned_log_then,
    returned_try_except, returned_bindM, returned_lift, Hget.
  cbn [bind]. rewrite returned_log_then, returned_bindM.
  pose proof Hrate as Hstatus. unfold rate_limit_exceeded in Hrate. rewrite Hrate.
  unfold headers_get. rewrite Hreset.
  rewrite returned_bindM, returned_lift, Hint. cbn [bind].
  rewrite returned_bindM, returned_lift, Hclock.
  cbn [bind]. rewrite returned_bindM, !returned_lift.
  apply andb_true_iff in Hrate. destruct Hrate as [H403 _].
  apply Z.eqb_eq in H403. unfold raise_for_status. rewrite H403.
  reflexivity.
Qed.

Lemma validate_credentials_rate_limit_witness :
  returned (GitHubActivitySource.validate_credentials
              (source_answering (rate_limited_until "1708430400"))) = Ok false.
Proof.
  apply (validate_credentials_rate_limit
           (source_answering (rate_limited_until "1708430400"))
           (rate_limited_until "1708430400") "1708430400" 1708430400
           (mk_datetime 1708430400000000 None));
    reflexivity.
Defined.

(** * Further facts about the tracker *)

Lemma add_source_returned (self : ActivityTracker.t) (source : ActivitySource) :
  returned (add_source self source) =
  match returned (validate_credentials source) with
  | Ok true => Ok (mk_tracker (sources self ++ [source]))
  | Ok false => Raise ValueError
  | Raise e => Raise e
  end.
Proof.
  unfold add_source.
  rewrite returned_log_then, returned_try_except, returned_bindM.
  destruct (returned (validate_credentials source)) as [[|] | e]; cbn [bind Exception].
  - rewrite returned_log_then. reflexivity.
  - rewrite returned_log_then, returned_raise, returned_log_exc_then. reflexivity.
  - rewrite returned_log_exc_then. reflexivity.
Qed.

(** X21. [add_source] registers a source exactly when its credentials
    validate, and then as the last of the sources.  A source whose
    credentials do not validate is rejected with a [ValueError], and one
    whose validation raises with that exception: a tracker filled through
    [add_source] holds validated sources only, in the order of their
    registration. *)
Theorem add_source_outcome (self self' : ActivityTracker.t) (source : ActivitySource) :
  returned (add_source self source) = Ok self' <->
  returned (validate_credentials source) = Ok true /\
  sources self' = (sources self ++ [source])%list.
Proof.
  rewrite add_source_returned.
  destruct (returned (validate_credentials source)) as [[|] | e]; split.
  - intros H. injection H as <-. split; reflexivity.
  - intros [_ H]. destruct self' as [registered]. simpl in H. subst. reflexivity.
  - discriminate.
  - intros [H _]. discriminate H.
  - discriminate.
  - intros [H _]. discriminate H.
Qed.

Lemma add_source_outcome_witness :
  returned (validate_credentials (source_giving "First" (Ok [early; late]))) = Ok true /\
  sources (mk_tracker [source_giving "First" (Ok [early; late])]) =
  (sources ActivityTracker.__init__ ++ [source_giving "First" (Ok [early; late])])%list.
Proof.
  apply (proj1 (add_source_outcome ActivityTracker.__init__
                  (mk_tracker [source_giving "First" (Ok [early; late])])
                  (source_giving "First" (Ok [early; late])))).
  reflexivity.
Defined.

(** X22. When every registered source raises, [get_all_activities] returns
    the empty list and raises nothing. *)
Theorem get_all_activities_all_fail (str_of_datetime : datetime -> string)
    (self : ActivityTracker.t) (username : string)
    (start_date end_date : option datetime) :
  Forall (fun source =>
            exists e : exn,
              returned (get_activities source username start_date end_date) = Raise e)
         (sources self) ->
  returned (get_all_activities str_of_datetime self username start_date end_date)
  = Ok [].
Proof.
  intros Hall. rewrite get_all_activities_returned.
  replace (retrieved username start_date end_date (sources self)) with (@nil Activity);
    [reflexivity |].
  symmetry. apply flat_map_nil. intros source Hin.
  rewrite Forall_forall in Hall. destruct (Hall source Hin) as [e He].
  unfold contribution. rewrite He. reflexivity.
Qed.

Lemma get_all_activities_all_fail_witness :
  returned (get_all_activities show_datetime all_sources_down "octocat" None None) = Ok [].
Proof.
  apply (get_all_activities_all_fail show_datetime all_sources_down "octocat" None None).
  repeat constructor; eexists; reflexivity.
Defined.






(** * Facts about the command line *)

Section IOFacts.

Context {A B : Type}.

Lemma outcome_io_lift (c : M A) : outcome (io_lift c) = returned c.
Proof. reflexivity. Qed.

Lemma printed_io_lift (c : M A) : printed (io_lift c) = [].
Proof. reflexivity. Qed.

Lemma outcome_io_bind (c : IO A) (k : A -> IO B) :
  outcome (io_bind c k) = bind (outcome c) (fun a => outcome (k a)).
Proof.
  destruct c as [p1 [l1 [a | e]]]; simpl; [| reflexivity].
  destruct (k a) as [p2 [l2 r]]. reflexivity.
Qed.

Lemma printed_io_bind (c : IO A) (k : A -> IO B) :
  printed (io_bind c k) =
  (printed c ++ match outcome c with
                | Ok a => printed (k a)
                | Raise _ => []
                end)%list.
Proof.
  destruct c as [p1 [l1 [a | e]]]; simpl; [| rewrite app_nil_r; reflexivity].
  destruct (k a) as [p2 [l2 r]]. reflexivity.
Qed.

Lemma outcome_io_try (body : IO A) (cls : exn -> bool) (handler : exn -> IO A) :
  outcome (io_try body cls handler) =
  match outcome body with
  | Ok a => Ok a
  | Raise e => if cls e then outcome (handler e) else Raise e
  end.
Proof.
  destruct body as [p1 [l1 [a | e]]]; simpl; [reflexivity |].
  destruct (cls e); [| reflexivity].
  destruct (handler e) as [p2 [l2 r]]. reflexivity.
Qed.

Lemma printed_io_try (body : IO A) (cls : exn -> bool) (handler : exn -> IO A) :
  printed (io_try body cls handler) =
  (printed body ++ match outcome body with
                   | Ok _ => []
                   | Raise e => if cls e then printed (handler e) else []
                   end)%list.
Proof.
  destruct body as [p1 [l1 [a | e]]]; simpl; [rewrite app_nil_r; reflexivity |].
  destruct (cls e); [| rewrite app_nil_r; reflexivity].
  destruct (handler e) as [p2 [l2 r]]. reflexivity.
Qed.

End IOFacts.

(** What the command does once the logger is set up and the dates are
    parsed: the [try] statement. *)
Lemma track_activity_try (w : world) (username : string)
    (organization start_date end_date : option string) (output_format : string)
    (log_file : option string) (lg : logger) (start end_ : option datetime) :
  setup_logging (environ w) (open_file w) (if_given log_file) "git_stalker" = Ok lg ->
  parse_date w start_date = Ok start ->
  parse_date w end_date = Ok end_ ->
  track_activity w username organization start_date end_date output_format log_file =
  io_try
    (github_token <<- io_lift (lift (get_github_token (environ w))) ;;
     github_source' <<-
       io_lift (GitHubActivitySource_init (environ w) (net w) (clock w)
                  (str_of_datetime w) (str_of_float w) github_token organization) ;;
     tracker' <<-
       io_lift (add_source ActivityTracker.__init__
                  (github_source (fromisoformat w) (isoformat w) github_source')) ;;
     activities <<-
       io_lift (get_all_activities (str_of_datetime w) tracker' username start end_) ;;
     io_for activities (print_activity w output_format))
    Exception
    (fun e => io_lift (log_exc ERROR "Error in track_activity: " e ;;; raise e)).
Proof.
  intros Hlog Hstart Hend. unfold track_activity. cbv zeta.
  rewrite Hlog, Hstart, Hend. cbn [io_bind io_lift lift].
  match goal with |- context [io_try ?b ?c ?h] => destruct (io_try b c h) as [p [l r]] end.
  reflexivity.
Qed.

(** X24. Without a token in the environment (unset or empty) the command
    raises a [ValueError], logs it and prints nothing, whatever the
    network would answer. *)
Theorem track_activity_missing_token (w : world) (username : string)
    (organization start_date end_date : option string) (output_format : string)
    (log_file : option string) (lg : logger) (start end_ : option datetime) :
  setup_logging (environ w) (open_file w) (if_given log_file) "git_stalker" = Ok lg ->
  parse_date w start_date = Ok start ->
  parse_date w end_date = Ok end_ ->
  environ w "GITHUB_TOKEN" = None \/ environ w "GITHUB_TOKEN" = Some "" ->
  track_activity w username organization start_date end_date output_format log_file =
  ([], ([mk_log ERROR "Error in track_activity: " (Some ValueError)], Raise ValueError)).
Proof.
  intros Hlog Hstart Hend Htoken.
  rewrite (track_activity_try _ _ _ _ _ _ _ _ _ _ Hlog Hstart Hend).
  assert (H : get_github_token (environ w) = Raise ValueError)
    by (unfold get_github_token; destruct Htoken as [-> | ->]; reflexivity).
  rewrite H. reflexivity.
Qed.

Lemma track_activity_missing_token_witness :
  track_activity bare_world "octocat" None None None "pretty" None =
  ([], ([mk_log ERROR "Error in track_activity: " (Some ValueError)], Raise ValueError)).
Proof.
  apply (track_activity_missing_token bare_world "octocat" None None None "pretty" None
           (mk_logger "git_stalker" "INFO" [StreamHandler "%(levelname)s - %(message)s"])
           None None); try reflexivity.
  left. reflexivity.
Defined.

Lemma track_activity_gathered (w : world) (username : string)
    (organization start_date end_date : option string) (output_format : string)
    (log_file : option string) (lg : logger) (start end_ : option datetime) :
  setup_logging (environ w) (open_file w) (if_given log_file) "git_stalker" = Ok lg ->
  parse_date w start_date = Ok start ->
  parse_date w end_date = Ok end_ ->
  let run :=
    track_activity w username organization start_date end_date output_format log_file in
  match gathered w username organization start end_ with
  | Ok activities =>
      printed run = printed (io_for activities (print_activity w output_format)) /\
      outcome run = outcome (io_for activities (print_activity w output_format))
  | Raise e => printed run = [] /\ outcome run = Raise e
  end.
Proof.
  intros Hlog Hstart Hend run. subst run.
  rewrite (track_activity_try _ _ _ _ _ _ _ _ _ _ Hlog Hstart Hend).
  unfold gathered.
  rewrite printed_io_try, outcome_io_try.
  rewrite printed_io_bind, outcome_io_bind, printed_io_lift, outcome_io_lift, returned_lift.
  destruct (get_github_token (environ w)) as [token | e]; cbn [bind app Exception];
    [| split; reflexivity].
  rewrite printed_io_bind, outcome_io_bind, printed_io_lift, outcome_io_lift.
  destruct (returned (GitHubActivitySource_init _ _ _ _ _ token organization))
    as [src | e]; cbn [bind app Exception]; [| split; reflexivity].
  rewrite printed_io_bind, outcome_io_bind, printed_io_lift, outcome_io_lift.
  destruct (returned (add_source _ _)) as [tracker' | e]; cbn [bind app Exception];
    [| split; reflexivity].
  rewrite printed_io_bind, outcome_io_bind, printed_io_lift, outcome_io_lift.
  destruct (returned (get_all_activities _ tracker' username start end_))
    as [activities | e]; cbn [bind app Exception]; [| split; reflexivity].
  destruct (outcome (io_for activities (print_activity w output_format))) as [[] | e].
  - rewrite app_nil_r. split; reflexivity.
  - rewrite outcome_io_lift, returned_log_exc_then, printed_io_lift, app_nil_r.
    split; reflexivity.
Qed.

(** X25. With [GITHUB_RETRY_TOTAL] and [GITHUB_RETRY_BACKOFF] unset the
    defaults are read, the constructor succeeds, no retry strategy is
    mounted, and the requests carry the token in their [Authorization]
    header, as [test_github_source_initialization] checks. *)
Theorem init_default (environ0 : environment) (net0 : network)
    (clock0 : Z -> result datetime) (str_of_datetime0 : datetime -> string)
    (str_of_float0 : string -> string) (token0 : string)
    (organization0 : option string) :
  environ0 "GITHUB_RETRY_TOTAL" = None ->
  environ0 "GITHUB_RETRY_BACKOFF" = None ->
  exists self : GitHubActivitySource.t,
    returned (GitHubActivitySource_init environ0 net0 clock0 str_of_datetime0 str_of_float0
                token0 organization0) = Ok self /\
    self = mk_source token0 organization0 (net0 None) clock0 str_of_datetime0 /\
    request_headers self =
    [("Authorization", "token " ++ token0);
     ("Accept", "application/vnd.github.v3+json")].
Proof.
  intros Htotal Hbackoff. eexists. split; [| split; reflexivity].
  unfold GitHubActivitySource_init, get_env_var. rewrite Htotal, Hbackoff.
  rewrite returned_bindM.
  match goal with |- bind ?c _ = _ => replace c with (@Ok unit tt) end.
  - reflexivity.
  - destruct organization0 as [org |]; [| reflexivity].
    destruct (String.eqb org ""); reflexivity.
Qed.

Lemma init_default_witness :
  exists self : GitHubActivitySource.t,
    returned (GitHubActivitySource_init (fun _ => None) unauthorized utc_fromtimestamp
                show_datetime (fun literal => literal) "dummy_token" None)
    = Ok self /\
    self = mk_source "dummy_token" None (unauthorized None) utc_fromtimestamp
             show_datetime /\
    request_headers self =
    [("Authorization", "token dummy_token");
     ("Accept", "application/vnd.github.v3+json")].
Proof.
  apply (init_default (fun _ => None) unauthorized utc_fromtimestamp show_datetime
           (fun literal => literal) "dummy_token" None); reflexivity.
Defined.

(** X26. Credentials that GitHub rejects end the command with a
    [ValueError] and without output. *)
Theorem track_activity_invalid_credentials (w : world) (username : string)
    (organization start_date end_date : option string) (output_format : string)
    (log_file : option string) (lg : logger) (start end_ : option datetime)
    (token0 : string) (self : GitHubActivitySource.t) :
  setup_logging (environ w) (open_file w) (if_given log_file) "git_stalker" = Ok lg ->
  parse_date w start_date = Ok start ->
  parse_date w end_date = Ok end_ ->
  get_github_token (environ w) = Ok token0 ->
  returned (GitHubActivitySource_init (environ w) (net w) (clock w) (str_of_datetime w)
              (str_of_float w) token0 organization) = Ok self ->
  returned (GitHubActivitySource.validate_credentials self) = Ok false ->
  let run :=
    track_activity w username organization start_date end_date output_format log_file in
  printed run = [] /\ outcome run = Raise ValueError.
Proof.
  intros Hlog Hstart Hend Htoken Hinit Hvalid.
  pose proof (track_activity_gathered w username organization start_date end_date
                output_format log_file lg start end_ Hlog Hstart Hend) as H.
  cbv zeta in H. unfold gathered in H. rewrite Htoken in H. cbn [bind] in H.
  rewrite Hinit in H. cbn [bind] in H. rewrite add_source_returned in H.
  change (returned (validate_credentials (github_source (fromisoformat w) (isoformat w) self)))
    with (returned (GitHubActivitySource.validate_credentials self)) in H.
  rewrite Hvalid in H. exact H.
Qed.

Lemma track_activity_invalid_credentials_witness :
  printed (track_activity (world_with unauthorized) "octocat" None None None "pretty" None)
  = [] /\
  outcome (track_activity (world_with unauthorized) "octocat" None None None "pretty" None)
  = Raise ValueError.
Proof.
  apply (track_activity_invalid_credentials (world_with unauthorized) "octocat"
           None None None "pretty" None
           (mk_logger "git_stalker" "INFO" [StreamHandler "%(levelname)s - %(message)s"])
           None None "ghp_token" (mk_source "ghp_token" None (unauthorized None)
                                  utc_fromtimestamp show_datetime));
    reflexivity.
Defined.

(** X27. A feed that cannot be fetched, once the credentials have
    validated, ends the command without output and without error: the
    tracker has dropped the failure of its only source. *)
Theorem track_activity_fetch_failure (w : world) (username : string)
    (organization start_date end_date : option string) (output_format : string)
    (log_file : option string) (lg : logger) (start end_ : option datetime)
    (token0 : string) (self : GitHubActivitySource.t) (e : exn) :
  setup_logging (environ w) (open_file w) (if_given log_file) "git_stalker" = Ok lg ->
  parse_date w start_date = Ok start ->
  parse_date w end_date = Ok end_ ->
  get_github_token (environ w) = Ok token0 ->
  returned (GitHubActivitySource_init (environ w) (net w) (clock w) (str_of_datetime w)
              (str_of_float w) token0 organization) = Ok self ->
  returned (GitHubActivitySource.validate_credentials self) = Ok true ->
  returned (GitHubActivitySource.get_activities (fromisoformat w) (isoformat w) self
              username start end_) = Raise e ->
  let run :=
    track_activity w username organization start_date end_date output_format log_file in
  printed run = [] /\ outcome run = Ok tt.
Proof.
  intros Hlog Hstart Hend Htoken Hinit Hvalid Hfetch.
  pose proof (track_activity_gathered w username organization start_date end_date
                output_format log_file lg start end_ Hlog Hstart Hend) as H.
  cbv zeta in H. unfold gathered in H. rewrite Htoken in H. cbn [bind] in H.
  rewrite Hinit in H. cbn [bind] in H. rewrite add_source_returned in H.
  change (returned (validate_credentials (github_source (fromisoformat w) (isoformat w) self)))
    with (returned (GitHubActivitySource.validate_credentials self)) in H.
  rewrite Hvalid in H. cbn [bind] in H.
  rewrite get_all_activities_returned in H.
  cbn [sources ActivityTracker.__init__ app retrieved flat_map] in H.
  unfold contribution in H.
  change (returned (get_activities (github_source (fromisoformat w) (isoformat w) self)
                      username start end_))
    with (returned (GitHubActivitySource.get_activities (fromisoformat w) (isoformat w)
                      self username start end_)) in H.
  rewrite Hfetch in H. exact H.
Qed.

Lemma track_activity_fetch_failure_witness :
  printed (track_activity (world_with profile_only) "octocat" None None None "pretty" None)
  = [] /\
  outcome (track_activity (world_with profile_only) "octocat" None None None "pretty" None)
  = Ok tt.
Proof.
  apply (track_activity_fetch_failure (world_with profile_only) "octocat"
           None None None "pretty" None
           (mk_logger "git_stalker" "INFO" [StreamHandler "%(levelname)s - %(message)s"])
           None None "ghp_token" (mk_source "ghp_token" None (profile_only None)
                                  utc_fromtimestamp show_datetime)
           Timeout);
    reflexivity.
Defined.

Lemma io_for_pretty (w : world) (activities : list Activity) :
  (forall s : string, console_print w s = Ok tt) ->
  io_for activities (print_activity w "pretty") =
  (flat_map (pretty_lines w) activities, ([], Ok tt)).
Proof.
  intros Hprint. induction activities as [| a rest IH]; [reflexivity |].
  cbn [io_for flat_map]. rewrite IH.
  unfold print_activity, print, pretty_lines.
  change (String.eqb "pretty" "pretty") with true. cbv iota.
  rewrite !Hprint. reflexivity.
Qed.

(** X28. In the [pretty] format, with valid credentials and a console that
    takes every line, the command prints three lines for each activity of
    the feed, the latest activity first: its time, its source with its
    message, and an empty line.  That is so when the time stamps of the
    feed are all aware or all naive; when both kinds occur the sort raises
    [TypeError], and the command prints nothing and raises it. *)
Theorem track_activity_pretty (w : world) (username : string)
    (organization start_date end_date : option string) (log_file : option string)
    (lg : logger) (start end_ : option datetime) (token0 : string)
    (self : GitHubActivitySource.t) (activities : list Activity) :
  setup_logging (environ w) (open_file w) (if_given log_file) "git_stalker" = Ok lg ->
  parse_date w start_date = Ok start ->
  parse_date w end_date = Ok end_ ->
  get_github_token (environ w) = Ok token0 ->
  returned (GitHubActivitySource_init (environ w) (net w) (clock w) (str_of_datetime w)
              (str_of_float w) token0 organization) = Ok self ->
  returned (GitHubActivitySource.validate_credentials self) = Ok true ->
  returned (GitHubActivitySource.get_activities (fromisoformat w) (isoformat w) self
              username start end_) = Ok activities ->
  (forall s : string, console_print w s = Ok tt) ->
  let run :=
    track_activity w username organization start_date end_date "pretty" log_file in
  if comparable timestamp activities then
    printed run
    = flat_map (pretty_lines w) (sort_descending (sort_key timestamp) activities) /\
    outcome run = Ok tt
  else printed run = [] /\ outcome run = Raise TypeError.
Proof.
  intros Hlog Hstart Hend Htoken Hinit Hvalid Hfetch Hprint.
  pose proof (track_activity_gathered w username organization start_date end_date
                "pretty" log_file lg start end_ Hlog Hstart Hend) as H.
  cbv zeta in H. unfold gathered in H. rewrite Htoken in H. cbn [bind] in H.
  rewrite Hinit in H. cbn [bind] in H. rewrite add_source_returned in H.
  change (returned (validate_credentials (github_source (fromisoformat w) (isoformat w) self)))
    with (returned (GitHubActivitySource.validate_credentials self)) in H.
  rewrite Hvalid in H. cbn [bind] in H.
  rewrite get_all_activities_returned in H.
  cbn [sources ActivityTracker.__init__ app retrieved flat_map] in H.
  unfold contribution in H.
  change (returned (get_activities (github_source (fromisoformat w) (isoformat w) self)
                      username start end_))
    with (returned (GitHubActivitySource.get_activities (fromisoformat w) (isoformat w)
                      self username start end_)) in H.
  rewrite Hfetch, app_nil_r, sorted_reverse_outcome in H. cbv zeta.
  destruct (comparable timestamp activities); [| exact H].
  rewrite (io_for_pretty _ _ Hprint) in H. exact H.
Qed.

Lemma track_activity_pretty_witness :
  printed (track_activity (world_with serving_test_event) "testuser" None None None
             "pretty" None)
  = ["[bold blue]1708430400000000+0[/bold blue]";
     "[bold]github[/bold]: Pushed 1 commit to unknown/unknown: test commit";
     ""] /\
  outcome (track_activity (world_with serving_test_event) "testuser" None None None
             "pretty" None)
  = Ok tt.
Proof.
  apply (track_activity_pretty (world_with serving_test_event) "testuser"
           None None None None
           (mk_logger "git_stalker" "INFO" [StreamHandler "%(levelname)s - %(message)s"])
           None None "ghp_token" (mk_source "ghp_token" None (serving_test_event None)
                                  utc_fromtimestamp show_datetime)
           [mk_Activity "github" noon_2024_02_20 (VStr "PushEvent")
              [("repository", VStr "unknown");
               ("repository_url", VStr "https://github.com/unknown");
               ("ref", VStr "unknown");
               ("commit_count", VInt 1);
               ("commit_messages", VList [VStr "test commit"]);
               ("compare_url", VStr "https://github.com/unknown/compare/...")]
              "Pushed 1 commit to unknown/unknown: test commit"]);
    reflexivity.
Defined.

(** * Facts about the first command *)

(** X29. When the first page of repositories is a JSON list, which is what
    the endpoint of GitHub answers, the command of [hello.py] raises an
    [AttributeError] on [response.get] and prints nothing. *)
Theorem hello_list_response (w : Hello.world) (fuel : nat)
    (username organization token0 : string) (start_date end_date : option string)
    (output_format : string) (range : option string * option string)
    (items : list value) :
  get_github_token (Hello.environ w) = Ok token0 ->
  Hello.date_range w start_date end_date = Ok range ->
  Hello.fetch_github_data w
    (VStr ("https://api.github.com/orgs/" ++ organization ++ "/repos?per_page=100"))
    [("Authorization", "token " ++ token0); ("Accept", "application/vnd.github.v3+json")]
  = Ok (VList items) ->
  Hello.track_activity w (S fuel) username organization start_date end_date output_format
  = Some ([], ([], Raise AttributeError)).
Proof.
  intros Htoken Hrange Hfetch. unfold Hello.track_activity.
  rewrite Htoken, Hrange. cbv zeta. cbn [Hello.fetch_pages].
  rewrite Hfetch. reflexivity.
Qed.

Lemma hello_list_response_witness :
  Hello.track_activity hello_world 1 "octocat" "octo-org" None None "pretty"
  = Some ([], ([], Raise AttributeError)).
Proof.
  apply (hello_list_response hello_world 0 "octocat" "octo-org" "ghp_token" None None
           "pretty" (None, Some (show_datetime (mk_datetime 1708430400000000 None) ++ "Z"))
           [VDict [("name", VStr "hello"); ("owner", VDict [("login", VStr "octocat")])];
            VDict [("name", VStr "world"); ("owner", VDict [("login", VStr "octocat")])]]);
    reflexivity.
Defined.

Lemma fetch_pages_strings (w : Hello.world) (headers : list (string * string))
    (fuel : nat) (url : value) (repos repos' : list value) :
  Forall is_str repos ->
  Hello.fetch_pages w headers fuel url repos = Some (Ok repos') ->
  Forall is_str repos'.
Proof.
  revert url repos. induction fuel as [| fuel IH]; intros url repos Hrepos H;
    cbn [Hello.fetch_pages] in H; [discriminate H |].
  destruct (py_truth url); [| injection H as <-; exact Hrepos].
  destruct (Hello.fetch_github_data w url headers) as [response | e];
    [| discriminate H].
  destruct response as [| b | n | s | items | fields];
    cbn [py_iter py_get bind] in H; try discriminate H.
  assert (Hkeys : Forall is_str (repos ++ map (fun kv => VStr (fst kv)) fields)).
  { apply Forall_app. split; [exact Hrepos |].
    apply Forall_forall. intros v Hv. apply in_map_iff in Hv.
    destruct Hv as [kv [<- _]]. eexists. reflexivity. }
  destruct (Hello.py_contains (dict_get fields "links" (VDict [])) "next") as [[|] | e];
    try discriminate H.
  - match type of H with
    | match ?c with _ => _ end = _ => destruct c as [url' | e]
    end; [| discriminate H].
    exact (IH _ _ Hkeys H).
  - injection H as <-. exact Hkeys.
Qed.

Lemma show_first_owned_strings (w : Hello.world) (username : string)
    (repos : list value) :
  Forall is_str repos ->
  printed (Hello.show_first_owned w username repos) = [].
Proof.
  intros H. destruct H as [| repo rest [s ->] _]; reflexivity.
Qed.

(** X30. The command of [hello.py] never prints a repository: whatever the
    environment, the network and the console do, a run that ends has
    printed nothing. *)
Theorem hello_prints_nothing (w : Hello.world) (fuel : nat)
    (username organization : string) (start_date end_date : option string)
    (output_format : string) (run : IO unit) :
  Hello.track_activity w fuel username organization start_date end_date output_format
  = Some run ->
  printed run = [].
Proof.
  unfold Hello.track_activity. intros H.
  destruct (get_github_token (Hello.environ w)) as [token0 | e];
    [| injection H as <-; reflexivity].
  destruct (Hello.date_range w start_date end_date) as [range | e];
    [| injection H as <-; reflexivity].
  cbv zeta in H.
  match type of H with
  | match ?c with _ => _ end = _ => destruct c as [[repos | e] |] eqn:Hpages
  end; try discriminate H; injection H as <-; [| reflexivity].
  apply show_first_owned_strings.
  exact (fetch_pages_strings _ _ _ _ _ _ (Forall_nil _) Hpages).
Qed.

Lemma hello_prints_nothing_witness :
  exists run : IO unit,
    Hello.track_activity hello_world 1 "octocat" "octo-org" None None "pretty" = Some run /\
    printed run = [].
Proof.
  eexists. split; [reflexivity |].
  apply (hello_prints_nothing hello_world 1 "octocat" "octo-org" None None "pretty").
  reflexivity.
Defined.
